(** * SPORTMAG: the order / stock / payment engine

    A shallow embedding of the order-creation and payment services of the
    SPORTMAG shop (a Django project) and the properties its specification
    states about them.

    Sources embedded here:
    - [apps/catalog/models.py]   Product and its stock methods
    - [apps/catalog/services.py] ProductService.check_availability
    - [apps/cart/models.py]      CartItem
    - [apps/cart/services.py]    CartService
    - [apps/orders/models.py]    Order, OrderItem, Transaction
    - [apps/orders/services.py]  OrderService, PaymentService
    - [apps/orders/views.py]     the refund view
    - [apps/orders/validators.py] validate_payment_amount
    - [apps/common/utils.py]     set_current_user_id, set_current_role
    - [apps/common/card_utils.py] masking and the Luhn check

    Conventions.
    - Money is a [DecimalField] with two decimal places; a stored amount is
      the integer number of hundredths (kopecks), a [Z].
    - Integer columns are Python/SQL integers, [Z].
    - A table with a primary key that the code looks rows up by is a
      [gmap Z row]; a table the code only filters and iterates is a list of
      rows in the order the model's [Meta.ordering] yields them.
    - Database access is a state-and-exception monad over a [World]:
      the tables, which a rolled-back transaction restores, and what a
      rollback does not restore (sequences, the procedure catalogue). *)

From Stdlib Require Import ZArith Bool Lia Ascii.
From stdpp Require Import base option list gmap strings pretty.

Open Scope Z_scope.

(** ** Data model *)

(** [Order.STATUS_CHOICES] *)
Inductive OrderStatus :=
| Pending | Processing | Shipped | Delivered | Completed | Refunded | Cancelled.

(** [Transaction.STATUS_CHOICES] *)
Inductive TxStatus := TxSuccess | TxFailed | TxRefunded | TxPending.

(** [Transaction.PAYMENT_METHOD_CHOICES] *)
Inductive PaymentMethod := Card | Cash | Online | BankTransfer.

#[global] Instance OrderStatus_eq_dec : EqDecision OrderStatus.
Proof. solve_decision. Defined.
#[global] Instance TxStatus_eq_dec : EqDecision TxStatus.
Proof. solve_decision. Defined.
#[global] Instance PaymentMethod_eq_dec : EqDecision PaymentMethod.
Proof. solve_decision. Defined.

(** [apps.catalog.models.Product]: the columns the engine reads or writes.
    [price] is [DecimalField(max_digits=12, decimal_places=2)], in
    hundredths. *)
Record Product := mkProduct {
  name : string;
  price : Z;
  stock_quantity : Z;
  is_available : bool
}.

(** [apps.cart.models.CartItem] *)
Record CartItem := mkCartItem {
  cart_user : Z;
  cart_product : Z;
  cart_quantity : Z
}.

(** [apps.orders.models.Order]; [total_amount] is
    [DecimalField(max_digits=14, decimal_places=2)], in hundredths. *)
Record Order := mkOrder {
  order_user : Z;
  total_amount : Z;
  order_status : OrderStatus
}.

(** [apps.orders.models.OrderItem] *)
Record OrderItem := mkOrderItem {
  item_order : Z;
  item_product : Z;
  item_quantity : Z;
  price_at_purchase : Z
}.

(** [apps.orders.models.Transaction]; [amount] is
    [DecimalField(max_digits=14, decimal_places=2)], in hundredths. *)
Record Transaction := mkTransaction {
  tx_order : Z;
  amount : Z;
  payment_method : PaymentMethod;
  tx_status : TxStatus
}.

(** [apps.common.models.Log]: level, the [action] tag of [meta], and the
    acting user. The free-text message is not modelled. *)
Inductive LogLevel := INFO | WARNING | ERROR.

Record Log := mkLog {
  log_level : LogLevel;
  log_action : string;
  log_user : option Z
}.

(** The user object handed to the services: id, username, and the name of
    the role when the user has one. *)
Record User := mkUser {
  user_id : Z;
  username : string;
  role : option string
}.

#[global] Instance Product_eq_dec : EqDecision Product.
Proof. solve_decision. Defined.
#[global] Instance CartItem_eq_dec : EqDecision CartItem.
Proof. solve_decision. Defined.
#[global] Instance Order_eq_dec : EqDecision Order.
Proof. solve_decision. Defined.
#[global] Instance OrderItem_eq_dec : EqDecision OrderItem.
Proof. solve_decision. Defined.
#[global] Instance Transaction_eq_dec : EqDecision Transaction.
Proof. solve_decision. Defined.

(** The rows a transaction can roll back. [cart_items] is kept in the
    order of [CartItem.Meta.ordering] (most recently added first) and
    [order_items] in the order of [OrderItem.Meta.ordering] (creation
    order), so a query is a filter of the list. *)
Record Tables := mkTables {
  products : gmap Z Product;
  cart_items : list CartItem;
  orders : gmap Z Order;
  order_items : list OrderItem;
  transactions : gmap Z Transaction;
  logs : list Log
}.

(** What surrounds the tables.
    - [orders_id_seq], [transactions_id_seq]: the sequences behind the
      [AutoField] primary keys; PostgreSQL does not roll a sequence back.
    - [pg_proc]: the names of the stored functions present in the database.
    - [session]: the [set_config(..., is_local := true)] settings of the
      transaction in progress.
    - [faults]: the fate of the writes of the transaction in progress.
      [Some n] lets [n] more writes succeed and makes every later write
      raise; [None] injects no fault. A statement that raises leaves a
      PostgreSQL transaction in the failed state, where every later
      statement raises as well, until the rollback: that state is
      [Some 0]. *)
Record World := mkWorld {
  tables : Tables;
  orders_id_seq : Z;
  transactions_id_seq : Z;
  pg_proc : list string;
  session : list (string * string);
  faults : option nat
}.

Definition set_tables (t : Tables) (w : World) : World :=
  mkWorld t (orders_id_seq w) (transactions_id_seq w) (pg_proc w) (session w) (faults w).

Definition set_session (s : list (string * string)) (w : World) : World :=
  mkWorld (tables w) (orders_id_seq w) (transactions_id_seq w) (pg_proc w) s (faults w).

Definition set_faults (f : option nat) (w : World) : World :=
  mkWorld (tables w) (orders_id_seq w) (transactions_id_seq w) (pg_proc w) (session w) f.

Definition set_products (p : gmap Z Product) (t : Tables) : Tables :=
  mkTables p (cart_items t) (orders t) (order_items t) (transactions t) (logs t).

Definition set_cart_items (c : list CartItem) (t : Tables) : Tables :=
  mkTables (products t) c (orders t) (order_items t) (transactions t) (logs t).

Definition set_orders (o : gmap Z Order) (t : Tables) : Tables :=
  mkTables (products t) (cart_items t) o (order_items t) (transactions t) (logs t).

Definition set_order_items (i : list OrderItem) (t : Tables) : Tables :=
  mkTables (products t) (cart_items t) (orders t) i (transactions t) (logs t).

Definition set_transactions (x : gmap Z Transaction) (t : Tables) : Tables :=
  mkTables (products t) (cart_items t) (orders t) (order_items t) x (logs t).

Definition set_logs (l : list Log) (t : Tables) : Tables :=
  mkTables (products t) (cart_items t) (orders t) (order_items t) (transactions t) l.

(** ** Exceptions *)

(** The messages of the errors, one constructor per message template of
    the source:
    - [EmptyCart]: 'Корзина пуста'
    - [ProductUnavailable n]: 'Товар "n" недоступен'
    - [InsufficientStock n q s]:
        'Недостаточно товара "n" на складе. В корзине: q, доступно: s'
    - [NotEnoughStock s q]: 'Недостаточно товара. Доступно: s, запрошено: q'
    - [OrderCreationError]: 'Ошибка при создании заказа'
    - [AmountMismatch]: 'Payment amount ... does not match order total ...'
    - [OrderNotFound i]: 'Order i not found'
    - [PaymentCreationError]: 'Ошибка при создании платежа'
    - [RefundError]: 'Ошибка при возврате транзакции'
    - [NotRefundable]: 'Транзакция не может быть возвращена'
    - [TransactionNotFound]: 'Транзакция не найдена' *)
Inductive Message :=
| EmptyCart
| ProductUnavailable (n : string)
| InsufficientStock (n : string) (in_cart available : Z)
| NotEnoughStock (available requested : Z)
| OrderCreationError
| AmountMismatch
| OrderNotFound (i : Z)
| PaymentCreationError
| RefundError
| NotRefundable
| TransactionNotFound.

(** Python exceptions. A [ValueError] carries the list of messages that
    the source joins with '; ' (a single message is a one-element list).
    [DoesNotExist] is what [get] raises when no row matches.
    [RelatedObjectDoesNotExist] is what reading [user.role] raises when
    the role of the user object is not set ([User.role] is a foreign key
    that is not nullable).
    [DatabaseError] stands for every error the database driver raises:
    [Some m] when a stored function raised an exception with message [m],
    [None] otherwise (integrity errors, numeric overflow, a call to a
    function that does not exist, a failed connection). *)
Inductive Exn :=
| ValueError (msgs : list Message)
| DoesNotExist
| RelatedObjectDoesNotExist
| DatabaseError (raised : option Message).

Inductive Res (A : Type) :=
| Ok (a : A)
| Raise (e : Exn).
Arguments Ok {A} a.
Arguments Raise {A} e.

(** ** The database monad *)

Definition M (A : Type) : Type := World -> Res A * World.

Definition ret {A} (a : A) : M A := fun w => (Ok a, w).

Definition bind {A B} (m : M A) (k : A -> M B) : M B := fun w =>
  match m w with
  | (Ok a, w') => k a w'
  | (Raise e, w') => (Raise e, w')
  end.

Definition raise {A} (e : Exn) : M A := fun w => (Raise e, w).

(** [try: body except Exception as e: handler e] *)
Definition try_except {A} (body : M A) (handler : Exn -> M A) : M A := fun w =>
  match body w with
  | (Ok a, w') => (Ok a, w')
  | (Raise e, w') => handler e w'
  end.

Declare Scope db_scope.
Delimit Scope db_scope with db.
Notation "x <- m ;; k" := (bind m (fun x => k))
  (at level 100, m at next level, right associativity) : db_scope.
Notation "m ;;; k" := (bind m (fun _ => k))
  (at level 100, right associativity) : db_scope.
Open Scope db_scope.

(** A SELECT: reads the tables. Faults are injected into writes only, and
    no flow of the services reads after one of its statements has raised. *)
Definition query {A} (q : Tables -> A) : M A := fun w => (Ok (q (tables w)), w).

(** An INSERT, UPDATE, DELETE or procedure call. In the failed state, or
    when the injected fault is due, it raises [DatabaseError] without
    touching a row. Otherwise the statement runs; it may itself raise ([f]
    returns the exception), which puts the transaction in the failed
    state. *)
Definition execute {A} (f : Tables -> Res (A * Tables)) : M A := fun w =>
  match faults w with
  | Some O => (Raise (DatabaseError None), w)
  | fl =>
      match f (tables w) with
      | Ok (a, t') => (Ok a, set_tables t' (set_faults (pred <$> fl) w))
      | Raise e => (Raise e, set_faults (Some O) w)
      end
  end.

(** [@transaction.atomic]: on an exception every row written by the body
    is rolled back; the sequences are not. The rollback ends the failed
    state, the fault oracle is back to what it was for this transaction.
    The transaction-local session settings end with the transaction
    either way. *)
Definition atomic {A} (body : M A) : M A := fun w =>
  match body w with
  | (Ok a, w') => (Ok a, set_session (session w) w')
  | (Raise e, w') =>
      (Raise e, set_faults (faults w) (set_session (session w) (set_tables (tables w) w')))
  end.

(** A [DecimalField(max_digits, decimal_places=2)] is a column
    [numeric(max_digits, 2)]: a value in hundredths fits when it has at
    most [max_digits] digits, and storing one that does not is a numeric
    overflow. *)
Definition decimal_fits (max_digits : Z) (hundredths : Z) : bool :=
  Z.abs hundredths <? 10 ^ max_digits.

(** ** apps/common/utils.py *)

Fixpoint assoc_set (k v : string) (l : list (string * string)) : list (string * string) :=
  match l with
  | [] => [(k, v)]
  | (k', v') :: l' => if String.eqb k k' then (k, v) :: l' else (k', v') :: assoc_set k v l'
  end.

(** [SELECT set_config(key, value, true)] *)
Definition set_config (k v : string) : M unit := fun w =>
  (Ok tt, set_session (assoc_set k v (session w)) w).

(** [set_current_user_id(user_id)] stores [str(user_id)]. *)
Definition set_current_user_id (uid : Z) : M unit :=
  set_config "app.current_user_id" (pretty uid).

Definition set_current_role (role_name : string) : M unit :=
  set_config "app.current_role" role_name.

(** [Log.objects.create(level=..., user_id=..., meta={'action': ...})] *)
Definition Log_create (lvl : LogLevel) (action : string) (uid : option Z) : M unit :=
  execute (fun t => Ok (tt, set_logs (logs t ++ [mkLog lvl action uid]) t)).

(** [if user.role: set_current_role(user.role.name)]. A role object is
    truthy; reading [user.role] raises when the role is not set. *)
Definition set_role_of (user : User) : M unit :=
  match role user with
  | Some role_name => set_current_role role_name
  | None => raise RelatedObjectDoesNotExist
  end.

(** [_procedure_exists(procname)]: a row of [pg_proc] with that name. *)
Definition _procedure_exists (procname : string) : M bool := fun w =>
  (Ok (bool_decide (procname ∈ pg_proc w)), w).

(** ** apps/catalog/models.py: Product *)

(** [Product.is_in_stock] *)
Definition is_in_stock (p : Product) : bool :=
  (0 <? stock_quantity p) && is_available p.

(** [Product.decrease_stock(quantity)]: the updated row, or the
    [ValueError] reporting the quantity available. *)
Definition decrease_stock (p : Product) (quantity : Z) : Res Product :=
  if stock_quantity p <? quantity then
    Raise (ValueError [NotEnoughStock (stock_quantity p) quantity])
  else
    let stock := stock_quantity p - quantity in
    let avail := if stock =? 0 then false else is_available p in
    Ok (mkProduct (name p) (price p) stock avail).

(** [Product.increase_stock(quantity)] *)
Definition increase_stock (p : Product) (quantity : Z) : Product :=
  let stock := stock_quantity p + quantity in
  let avail := if negb (is_available p) then true else is_available p in
  mkProduct (name p) (price p) stock avail.

(** The outcome of [cursor.callproc(...)] followed by [cursor.fetchone()]:
    a stored function either raises inside the database or leaves new
    tables and at most one result row. The stored functions themselves are
    SQL that lives in the database, outside the Python sources. *)
Inductive ProcOutcome (R : Type) :=
| ProcRaise (raised : option Message)
| ProcReturn (t : Tables) (row : option R).
Arguments ProcRaise {R} raised.
Arguments ProcReturn {R} t row.

(** [cursor.callproc(procname, ...)] followed by [cursor.fetchone()],
    with [proc] the stored function of that name applied to the arguments
    of the call: a function that is not in [pg_proc] cannot be called, the
    statement raises. *)
Definition callproc {R} (procname : string) (proc : Tables -> ProcOutcome R)
    : M (option R) := fun w =>
  execute (fun t =>
    if bool_decide (procname ∈ pg_proc w) then
      match proc t with
      | ProcRaise m => Raise (DatabaseError m)
      | ProcReturn t' row => Ok (row, t')
      end
    else Raise (DatabaseError None)) w.

(** ** apps/cart/services.py *)

Module CartService.

(** [CartService.get_cart(user)] when it is iterated:
    [CartItem.objects.filter(user=user).select_related('product', ...)].
    The join with [products] is an inner join, each line comes with the
    product row read by the same query. *)
Definition get_cart (user : User) (t : Tables) : list (CartItem * Product) :=
  omap (fun item =>
          if bool_decide (cart_user item = user_id user) then
            p ← products t !! cart_product item; Some (item, p)
          else None)
       (cart_items t).

(** [CartService.get_cart(user).exists()]: the query without the join. *)
Definition exists_ (user : User) (t : Tables) : bool :=
  bool_decide (filter (fun item => cart_user item = user_id user) (cart_items t) ≠ []).

(** The loop body of [validate_cart]: the error a line adds, if any. *)
Definition line_error (line : CartItem * Product) : option Message :=
  let (item, product) := line in
  if negb (is_available product) then
    Some (ProductUnavailable (name product))
  else if stock_quantity product <? cart_quantity item then
    Some (InsufficientStock (name product) (cart_quantity item) (stock_quantity product))
  else None.

(** [CartService.validate_cart(user)] returns [(is_valid, errors)]. *)
Definition validate_cart (user : User) (t : Tables) : bool * list Message :=
  if negb (exists_ user t) then (false, [EmptyCart])
  else
    let errors := omap line_error (get_cart user t) in
    (bool_decide (length errors = 0%nat), errors).

(** [CartService.clear_cart(user)], the statement
    [CartItem.objects.filter(user=user).delete()]. *)
Definition clear_cart (user : User) : M unit :=
  execute (fun t =>
    Ok (tt, set_cart_items
              (filter (fun item => cart_user item ≠ user_id user) (cart_items t)) t)).

End CartService.

(** ** apps/orders/models.py *)

(** [Order.can_be_paid] *)
Definition can_be_paid (o : Order) : bool :=
  bool_decide (order_status o ∈ [Pending; Cancelled]).

(** [Order.can_be_refunded] *)
Definition Order_can_be_refunded (o : Order) : bool :=
  bool_decide (order_status o = Completed).

(** [Order.is_active] *)
Definition is_active (o : Order) : bool :=
  bool_decide (order_status o ∉ [Completed; Cancelled; Refunded]).

(** [Transaction.can_be_refunded] *)
Definition can_be_refunded (x : Transaction) : bool :=
  bool_decide (tx_status x = TxSuccess).

(** [Order.objects.create(user=..., total_amount=..., status=...)]: the id
    comes from the sequence, which advances whether or not the INSERT
    succeeds; a duplicate key is an integrity error. *)
Definition Order_create (o : Order) : M Z := fun w =>
  let i := orders_id_seq w in
  let w1 := mkWorld (tables w) (i + 1) (transactions_id_seq w) (pg_proc w) (session w) (faults w) in
  execute (fun t =>
    if negb (decimal_fits 14 (total_amount o)) then Raise (DatabaseError None)
    else match orders t !! i with
         | Some _ => Raise (DatabaseError None)
         | None => Ok (i, set_orders (<[i := o]> (orders t)) t)
         end) w1.

(** [Order.objects.get(id=order_id)] *)
Definition Order_get (i : Z) : M Order := fun w =>
  match orders (tables w) !! i with
  | Some o => (Ok o, w)
  | None => (Raise DoesNotExist, w)
  end.

(** [order.save(update_fields=[...])] with the instance's current field
    values [f] applied to the stored row: Django raises [DatabaseError]
    when the UPDATE affects no row. *)
Definition Order_save (i : Z) (f : Order -> Order) : M unit :=
  execute (fun t =>
    match orders t !! i with
    | Some o =>
        if negb (decimal_fits 14 (total_amount (f o))) then Raise (DatabaseError None)
        else Ok (tt, set_orders (<[i := f o]> (orders t)) t)
    | None => Raise (DatabaseError None)
    end).

(** [order.delete()]: the collector first deletes the rows that reference
    the order with [on_delete=CASCADE] (its items and its transactions),
    then the order. *)
Definition Order_delete (i : Z) : M unit :=
  execute (fun t =>
    Ok (tt, mkTables (products t) (cart_items t)
              (delete i (orders t))
              (filter (fun it => item_order it ≠ i) (order_items t))
              (filter (fun kx => tx_order kx.2 ≠ i) (transactions t))
              (logs t))).

(** [OrderItem.objects.create(order=..., product=..., quantity=...,
    price_at_purchase=...)] *)
Definition OrderItem_create (it : OrderItem) : M unit :=
  execute (fun t =>
    if negb (decimal_fits 12 (price_at_purchase it)) then Raise (DatabaseError None)
    else match orders t !! item_order it, products t !! item_product it with
         | Some _, Some _ => Ok (tt, set_order_items (order_items t ++ [it]) t)
         | _, _ => Raise (DatabaseError None)
         end).

(** [Product.objects.filter(pk=pk).update(stock_quantity=stock)] *)
Definition Product_update_stock (pk : Z) (stock : Z) : M unit :=
  execute (fun t =>
    Ok (tt, set_products
              (alter (fun p => mkProduct (name p) (price p) stock (is_available p)) pk
                     (products t)) t)).

(** [Transaction.objects.create(order=..., amount=..., payment_method=...,
    status=...)] *)
Definition Transaction_create (x : Transaction) : M Z := fun w =>
  let i := transactions_id_seq w in
  let w1 := mkWorld (tables w) (orders_id_seq w) (i + 1) (pg_proc w) (session w) (faults w) in
  execute (fun t =>
    if negb (decimal_fits 14 (amount x)) then Raise (DatabaseError None)
    else match orders t !! tx_order x, transactions t !! i with
         | Some _, None => Ok (i, set_transactions (<[i := x]> (transactions t)) t)
         | _, _ => Raise (DatabaseError None)
         end) w1.

(** [Transaction.objects.select_related('order').get(id=...)] *)
Definition Transaction_get (i : Z) : M Transaction := fun w =>
  match transactions (tables w) !! i with
  | Some x => (Ok x, w)
  | None => (Raise DoesNotExist, w)
  end.

(** ** apps/orders/services.py: order creation *)

(** The [for item in cart_items] loop of [_create_order_from_cart_python].
    [item.product] is the product row the cart query joined in, so the
    stock test, the price and the new stock all come from that row.
    Decimal times integer and decimal plus decimal are exact on
    hundredths. *)
Fixpoint order_lines (order : Z) (cart : list (CartItem * Product)) (total_amount : Z) : M Z :=
  match cart with
  | [] => ret total_amount
  | (item, product) :: rest =>
      if stock_quantity product <? cart_quantity item then
        raise (ValueError
                 [InsufficientStock (name product) (cart_quantity item) (stock_quantity product)])
      else
        let price := price product in
        let subtotal := price * cart_quantity item in
        let total_amount := total_amount + subtotal in
        OrderItem_create
          (mkOrderItem order (cart_product item) (cart_quantity item) price);;;
        Product_update_stock (cart_product item)
          (stock_quantity product - cart_quantity item);;;
        order_lines order rest total_amount
  end.

(** [_create_order_from_cart_python] from its second statement on, given
    the cart lines the first statement read. Returns the id of the order
    and the total. *)
Definition order_from_snapshot (user : User) (cart : list (CartItem * Product)) : M (Z * Z) :=
  if bool_decide (cart = []) then raise (ValueError [EmptyCart])
  else
    order <- Order_create (mkOrder (user_id user) 0 Pending);;
    try_except
      (total_amount <- order_lines order cart 0;;
       Order_save order (fun o => mkOrder (order_user o) total_amount (order_status o));;;
       CartService.clear_cart user;;;
       ret (order, total_amount))
      (fun e => Order_delete order;;; raise e).

(** [_create_order_from_cart_python(user)] *)
Definition _create_order_from_cart_python (user : User) : M (Z * Z) :=
  cart <- query (CartService.get_cart user);;
  order_from_snapshot user cart.

Module OrderService.
Section Procedures.

(** The stored function [create_order_from_cart(user_id)], returning
    [(order_id, total_amount)]. *)
Variable create_order_from_cart_proc : Z -> Tables -> ProcOutcome (Z * Z).

(** [OrderService.create_order_from_cart(user)] *)
Definition create_order_from_cart (user : User) : M (Z * Z) :=
  atomic
    (v <- query (CartService.validate_cart user);;
     let '(is_valid, errors) := v in
     if negb is_valid then raise (ValueError errors)
     else
       set_current_user_id (user_id user);;;
       set_role_of user;;;
       present <- _procedure_exists "create_order_from_cart";;
       if negb present then
         r <- _create_order_from_cart_python user;;
         Log_create INFO "order_created" (Some (user_id user));;;
         ret r
       else
         try_except
           (result <- callproc "create_order_from_cart"
                        (create_order_from_cart_proc (user_id user));;
            match result with
            | Some (order_id, total_amount) =>
                Log_create INFO "order_created" (Some (user_id user));;;
                _ <- Order_get order_id;;
                ret (order_id, total_amount)
            | None => raise (ValueError [OrderCreationError])
            end)
           (fun e =>
              Log_create ERROR "order_creation_failed" (Some (user_id user));;;
              raise e)).

End Procedures.
End OrderService.

(** ** Decimals and floats *)

(** A finite [decimal.Decimal]: the number [coefficient * 10 ^ exponent]. *)
Record Decimal := mkDecimal {
  coefficient : Z;
  exponent : Z
}.

(** The [Decimal] the ORM returns for a stored [DecimalField] with two
    decimal places. *)
Definition of_hundredths (h : Z) : Decimal := mkDecimal h (-2).

(** A Python [float] that is not a NaN. [Finite m] is the binary64 number
    [m * 2 ^ (-1074)] (every finite binary64 is such a multiple of the
    least subnormal); the two zeros are both [Finite 0], which is how [==]
    sees them. *)
Inductive pyfloat :=
| Finite (m : Z)
| Infinity (negative : bool).

#[global] Instance pyfloat_eq_dec : EqDecision pyfloat.
Proof. solve_decision. Defined.

(** floor (log2 (n / d)) for positive [n] and [d]. *)
Definition floor_log2_ratio (n d : Z) : Z :=
  let g := Z.log2 n - Z.log2 d in
  if 0 <=? g then (if d * 2 ^ g <=? n then g else g - 1)
  else (if d <=? n * 2 ^ (- g) then g else g - 1).

(** The integer nearest to [a / b], ties to the even one ([0 < b]). *)
Definition round_half_even (a b : Z) : Z :=
  let q := a / b in
  let r := a mod b in
  if 2 * r <? b then q
  else if b <? 2 * r then q + 1
  else if Z.even q then q else q + 1.

(** The binary64 nearest to [n / d] (round to nearest, ties to even), for
    positive [n] and [d]: the significand is [n / d] scaled by the power of
    two that leaves 53 bits, or by [2 ^ 1074] in the subnormal range. *)
Definition binary64_of_ratio (n d : Z) : pyfloat :=
  let e := Z.max (floor_log2_ratio n d - 52) (-1074) in
  if e <? 0 then Finite (round_half_even (n * 2 ^ (- e)) d * 2 ^ (e + 1074))
  else
    let m := round_half_even n (d * 2 ^ e) in
    if 2 ^ 1024 <=? m * 2 ^ e then Infinity false
    else Finite (m * 2 ^ (e + 1074)).

Definition float_neg (f : pyfloat) : pyfloat :=
  match f with
  | Finite m => Finite (- m)
  | Infinity s => Infinity (negb s)
  end.

(** [float(x)] for a [Decimal] [x]: the correctly rounded binary64. *)
Definition float (x : Decimal) : pyfloat :=
  let c := coefficient x in
  if c =? 0 then Finite 0
  else
    let f := if 0 <=? exponent x then binary64_of_ratio (Z.abs c * 10 ^ exponent x) 1
             else binary64_of_ratio (Z.abs c) (10 ^ (- exponent x)) in
    if c <? 0 then float_neg f else f.

Arguments float : simpl never.

(** What a [numeric(14, 2)] column stores for a [Decimal]: the value
    rounded to hundredths, halves away from zero; [None] on overflow. *)
Definition numeric_14_2 (x : Decimal) : option Z :=
  let c := coefficient x in
  let h := if -2 <=? exponent x then c * 10 ^ (exponent x + 2)
           else
             let d := 10 ^ (- 2 - exponent x) in
             Z.sgn c * ((2 * Z.abs c + d) / (2 * d)) in
  if decimal_fits 14 h then Some h else None.

(** Exact equality of two decimals as numbers, the comparison the
    specification words as "decimal equality, not tolerance-based". *)
Definition exact_decimal_equal (x y : Decimal) : bool :=
  let e := Z.min (exponent x) (exponent y) in
  coefficient x * 10 ^ (exponent x - e) =? coefficient y * 10 ^ (exponent y - e).

(** ** apps/orders/services.py: payments *)

Module PaymentService.
Section Procedures.

(** The stored function [create_payment(order_id, amount, method)],
    returning [(transaction_id, status)]. *)
Variable create_payment_proc :
  Z -> Decimal -> PaymentMethod -> Tables -> ProcOutcome (option Z * TxStatus).

(** The stored function [refund_transaction(transaction_id)], returning a
    message. *)
Variable refund_transaction_proc : Z -> Tables -> ProcOutcome string.

(** The first statements of [create_payment] and [refund_transaction]:
    [if user: set_current_user_id(user.id)] and the role after it. *)
Definition set_user_context (user : option User) : M unit :=
  match user with
  | Some u =>
      set_current_user_id (user_id u);;;
      set_role_of u
  | None => ret tt
  end.

(** The amount validation of [create_payment], its first [try] block. *)
Definition validate_amount (order_id : Z) (amount : Decimal) (user : option User) : M unit :=
  try_except
    (order <- Order_get order_id;;
     if bool_decide (float amount ≠ float (of_hundredths (total_amount order))) then
       Log_create WARNING "payment_validation_failed" (user_id <$> user);;;
       raise (ValueError [AmountMismatch])
     else ret tt)
    (fun e =>
       match e with
       | DoesNotExist => raise (ValueError [OrderNotFound order_id])
       | _ => raise e
       end).

(** [PaymentService.create_payment(order_id, amount, payment_method,
    user)]. Returns the id of the transaction (when there is one) and
    the status. The analytics cache that the source invalidates is not
    part of the database. *)
Definition create_payment (order_id : Z) (amount : Decimal)
    (payment_method : PaymentMethod) (user : option User) : M (option Z * TxStatus) :=
  atomic
    (set_user_context user;;;
     validate_amount order_id amount user;;;
     present <- _procedure_exists "create_payment";;
     if negb present then
       _ <- Order_get order_id;;
       tx <- match numeric_14_2 amount with
             | Some h => Transaction_create (mkTransaction order_id h payment_method TxSuccess)
             | None => execute (fun _ => Raise (DatabaseError None))
             end;;
       Order_save order_id (fun o => mkOrder (order_user o) (total_amount o) Completed);;;
       Log_create INFO "payment_processed" (user_id <$> user);;;
       ret (Some tx, TxSuccess)
     else
       try_except
         (result <- callproc "create_payment"
                      (create_payment_proc order_id amount payment_method);;
          match result with
          | Some (transaction_id, status) =>
              let log_level := if bool_decide (status = TxSuccess) then INFO else ERROR in
              Log_create log_level "payment_processed" (user_id <$> user);;;
              match transaction_id with
              | Some i =>
                  if bool_decide (i ≠ 0) then
                    _ <- Transaction_get i;;
                    ret (Some i, status)
                  else ret (None, status)
              | None => ret (None, status)
              end
          | None => raise (ValueError [PaymentCreationError])
          end)
         (fun e =>
            Log_create ERROR "payment_failed" (user_id <$> user);;;
            raise e)).

(** [PaymentService.refund_transaction(transaction_id, user)] *)
Definition refund_transaction (transaction_id : Z) (user : option User) : M string :=
  atomic
    (set_user_context user;;;
     try_except
       (result <- callproc "refund_transaction" (refund_transaction_proc transaction_id);;
        match result with
        | Some message =>
            Log_create INFO "transaction_refunded" (user_id <$> user);;;
            ret message
        | None => raise (ValueError [RefundError])
        end)
       (fun e =>
          Log_create ERROR "refund_failed" (user_id <$> user);;;
          raise e)).

End Procedures.
End PaymentService.

(** ** The stored function behind refunds *)

(** [release] of one order line: [Product.increase_stock] on the row of
    the line's product. *)
Definition release_line (ps : gmap Z Product) (it : OrderItem) : gmap Z Product :=
  alter (fun p => increase_stock p (item_quantity it)) (item_product it) ps.

(** The lines of an order, [order.items.all()]. *)
Definition items_of (order : Z) (t : Tables) : list OrderItem :=
  filter (fun it => item_order it = order) (order_items t).

(** Modelled from the spec: the stored function [refund_transaction] is
    SQL kept in the database and is missing from the Python sources, which
    only call it. Section 4.4: only a transaction with status Success may
    be refunded, the call fails with NotRefundable otherwise; on success
    the transaction becomes Refunded, its order becomes Refunded, and the
    stock ledger's release is called for the quantity of every line of
    that order. *)
Definition refund_transaction_sql (transaction_id : Z) (t : Tables) : ProcOutcome string :=
  match transactions t !! transaction_id with
  | None => ProcRaise (Some TransactionNotFound)
  | Some x =>
      if negb (can_be_refunded x) then ProcRaise (Some NotRefundable)
      else
        ProcReturn
          (mkTables
             (foldl release_line (products t) (items_of (tx_order x) t))
             (cart_items t)
             (alter (fun o => mkOrder (order_user o) (total_amount o) Refunded)
                    (tx_order x) (orders t))
             (order_items t)
             (<[transaction_id :=
                  mkTransaction (tx_order x) (amount x) (payment_method x) TxRefunded]>
                (transactions t))
             (logs t))
          (Some "Transaction refunded")
  end.

(** The units of product [pk] on the lines [items]. *)
Definition ordered_quantity (pk : Z) (items : list OrderItem) : Z :=
  foldr (fun it acc => if bool_decide (item_product it = pk) then item_quantity it + acc else acc)
        0 items.

(** ** apps/orders/views.py: the refund endpoint *)

Inductive Response :=
| HTTP_200_OK (message : string)
| HTTP_400_BAD_REQUEST (errors : list Message)
| HTTP_404_NOT_FOUND (error : Message).

(** [refund_transaction_view(request, transaction_id)], after the
    permission check ([IsAdmin]: [request.user.role.name == 'Admin']).
    [refresh_from_db] reads the transaction again and raises
    [DoesNotExist] when the row is gone. *)
Definition refund_transaction_view
    (refund_transaction_proc : Z -> Tables -> ProcOutcome string)
    (transaction_id : Z) (user : User) : M Response :=
  found <- try_except
             (transaction_obj <- Transaction_get transaction_id;;
              ret (Some transaction_obj))
             (fun e =>
                match e with
                | DoesNotExist => ret None
                | _ => raise e
                end);;
  match found with
  | None => ret (HTTP_404_NOT_FOUND TransactionNotFound)
  | Some transaction_obj =>
      if negb (can_be_refunded transaction_obj) then
        ret (HTTP_400_BAD_REQUEST [NotRefundable])
      else
        try_except
          (message <- PaymentService.refund_transaction refund_transaction_proc
                        transaction_id (Some user);;
           _ <- Transaction_get transaction_id;;
           ret (HTTP_200_OK message))
          (fun e =>
             match e with
             | ValueError msgs => ret (HTTP_400_BAD_REQUEST msgs)
             | _ => raise e
             end)
  end.

(** ** The stock ledger as a sequence of operations *)

(** [reserve] is [Product.decrease_stock], [release] is
    [Product.increase_stock]; a reservation that raises leaves the
    instance as it was. *)
Inductive StockOp :=
| Reserve (quantity : Z)
| Release (quantity : Z).

Definition apply_op (p : Product) (op : StockOp) : Product :=
  match op with
  | Reserve q => match decrease_stock p q with Ok p' => p' | Raise _ => p end
  | Release q => increase_stock p q
  end.

Definition release_nonneg (op : StockOp) : Prop :=
  match op with
  | Reserve _ => True
  | Release q => 0 <= q
  end.

(** ** What an order is expected to hold *)

(** The sum, over the lines of a cart snapshot, of the quantity times the
    unit price read with the snapshot. *)
Definition snapshot_total (cart : list (CartItem * Product)) : Z :=
  foldr (fun line acc => cart_quantity line.1 * price line.2 + acc) 0 cart.

(** The order line that corresponds to a line of the snapshot. *)
Definition snapshot_line (order : Z) (line : CartItem * Product) : OrderItem :=
  mkOrderItem order (cart_product line.1) (cart_quantity line.1) (price line.2).

(** Order [order] of [user] with total [total], as it is expected in the
    tables [t] after it was created from the snapshot [cart]. *)
Definition persisted_from (user : User) (cart : list (CartItem * Product))
    (order total : Z) (t : Tables) : Prop :=
  total = snapshot_total cart
  /\ orders t !! order = Some (mkOrder (user_id user) (snapshot_total cart) Pending)
  /\ filter (fun it => item_order it = order) (order_items t)
     = map (snapshot_line order) cart.

(** The stock written for a line of the snapshot. *)
Definition reserve_line (ps : gmap Z Product) (line : CartItem * Product) : gmap Z Product :=
  alter (fun p => mkProduct (name p) (price p)
                    (stock_quantity line.2 - cart_quantity line.1) (is_available p))
        (cart_product line.1) ps.

(** The callers the payment service is written for: no user, or a user
    object whose role is set, as it is for every user the database
    stores. *)
Definition role_is_set (user : option User) : Prop :=
  match user with
  | Some u => is_Some (role u)
  | None => True
  end.

(** The outcome of a rejected payment: the call raises, the tables are
    the ones it started with, and, unless the database failed on the
    warning log row, what is raised is the amount-mismatch [ValueError]. *)
Definition rejected (run : Res (option Z * TxStatus) * World) (w : World) : Prop :=
  exists e w',
    run = (Raise e, w')
    /\ tables w' = tables w
    /\ (faults w <> Some 0%nat -> e = ValueError [AmountMismatch]).

(** * More of the code *)

(** ** apps/cart/models.py: CartItem methods *)

(** The errors of the cart code, one constructor per message template:
    - [StockShort a r]:
        'Недостаточно товара на складе. Доступно: a, запрошено: r'
    - [StockShortOnAdd c q a]: 'Недостаточно товара на складе.
        В корзине: c, добавляется: q, доступно: a'
    - [ProductNotFound]: 'Товар не найден или недоступен'
    - [MultipleObjectsReturned]: what [get] raises on more than one row
    - [AttributeError]: an attribute read on [None] *)
Inductive CartError :=
| StockShort (available requested : Z)
| StockShortOnAdd (in_cart adding available : Z)
| ProductNotFound
| MultipleObjectsReturned
| AttributeError.

(** [CartItem.get_total_price], with [self.product] given. *)
Definition CartItem_get_total_price (item : CartItem) (product : Product) : Z :=
  price product * cart_quantity item.

(** [CartItem.can_increase(amount)] *)
Definition can_increase (item : CartItem) (product : Product) (amount : Z) : bool :=
  cart_quantity item + amount <=? stock_quantity product.

(** [CartItem.increase_quantity(amount)]: the saved line, or the error. *)
Definition increase_quantity (item : CartItem) (product : Product) (amount : Z)
    : CartError + CartItem :=
  let new_quantity := cart_quantity item + amount in
  if negb (can_increase item product amount) then
    inl (StockShort (stock_quantity product) new_quantity)
  else inr (mkCartItem (cart_user item) (cart_product item) new_quantity).

(** [OrderItem.get_total_price] *)
Definition OrderItem_get_total_price (it : OrderItem) : Z :=
  price_at_purchase it * item_quantity it.

(** ** apps/catalog/services.py *)

Module ProductService.

(** [ProductService.check_availability(product_id, quantity)] returns
    [(is_available, product)]. *)
Definition check_availability (product_id quantity : Z) (t : Tables) : bool * option Product :=
  match products t !! product_id with
  | Some product =>
      if is_available product then
        if quantity <=? stock_quantity product then (true, Some product)
        else (false, Some product)
      else (false, None)
  | None => (false, None)
  end.

End ProductService.

(** ** apps/cart/services.py: the rest of CartService *)

(** The rows [CartItem.objects.filter(user=user, product_id=product_id)]. *)
Definition cart_lines_of (uid product_id : Z) (t : Tables) : list CartItem :=
  filter (fun item => cart_user item = uid /\ cart_product item = product_id) (cart_items t).

(** [CartService.add_to_cart(user, product_id, quantity)]. Every path
    writes at most once, as its last statement, so the transaction around
    it has nothing to roll back; the result is the line and the new
    tables, or the error raised. A new line is the most recently added
    one, the first of the table in [Meta.ordering]; saving a line keeps
    its place. *)
Definition add_to_cart (user : User) (product_id quantity : Z) (t : Tables)
    : CartError + (CartItem * Tables) :=
  match ProductService.check_availability product_id quantity t with
  | (false, Some product) => inl (StockShort (stock_quantity product) quantity)
  | (false, None) => inl ProductNotFound
  | (true, product) =>
      match cart_lines_of (user_id user) product_id t with
      | [] =>
          let cart_item := mkCartItem (user_id user) product_id quantity in
          inr (cart_item, set_cart_items (cart_item :: cart_items t) t)
      | [cart_item] =>
          match product with
          | None => inl AttributeError
          | Some product =>
              let new_quantity := cart_quantity cart_item + quantity in
              if stock_quantity product <? new_quantity then
                inl (StockShortOnAdd (cart_quantity cart_item) quantity
                       (stock_quantity product))
              else
                let saved := mkCartItem (user_id user) product_id new_quantity in
                inr (saved,
                     set_cart_items
                       (map (fun item =>
                               if bool_decide (cart_user item = user_id user
                                               /\ cart_product item = product_id)
                               then saved else item)
                            (cart_items t)) t)
          end
      | _ => inl MultipleObjectsReturned
      end
  end.

(** [CartService.get_cart_total(user)] returns [total_items] and
    [total_price]; Python's [sum] adds from the left, starting at 0. *)
Definition get_cart_total (user : User) (t : Tables) : Z * Z :=
  let cart := CartService.get_cart user t in
  (foldl (fun acc line => acc + cart_quantity line.1) 0 cart,
   foldl (fun acc line => acc + CartItem_get_total_price line.1 line.2) 0 cart).

(** [unique_together = [['user', 'product']]] on [cart_items]. *)
Definition cart_unique (t : Tables) : Prop :=
  NoDup (map (fun item => (cart_user item, cart_product item)) (cart_items t)).

(** ** apps/orders/services.py: OrderService.get_order_by_id *)

(** [OrderService.get_order_by_id(order_id, user)]: the order or [None];
    reading [user.role.name] of a user without a role raises. *)
Definition get_order_by_id (order_id : Z) (user : option User) (t : Tables)
    : CartError + option Order :=
  match user with
  | Some u =>
      match role u with
      | None => inl AttributeError
      | Some role_name =>
          if String.eqb role_name "Admin" then inr (orders t !! order_id)
          else
            inr (match orders t !! order_id with
                 | Some o => if bool_decide (order_user o = user_id u) then Some o else None
                 | None => None
                 end)
      end
  | None => inr (orders t !! order_id)
  end.

(** ** apps/orders/validators.py *)

(** The messages of [validate_payment_amount]:
    - [NotPositive]: 'Сумма платежа должна быть больше нуля'
    - [TooLarge]: 'Сумма платежа слишком большая'
    - [OverLimit]: 'Сумма платежа превышает максимально допустимую' *)
Inductive ValidationError := NotPositive | TooLarge | OverLimit.

(** [validate_payment_amount(value)] on a value with two decimal places,
    in hundredths: [None] when the validator returns, the error when it
    raises. *)
Definition validate_payment_amount (value : Z) : option ValidationError :=
  if value <=? 0 then Some NotPositive
  else if 99999999999999 <? value then Some TooLarge
  else if 1000000000 <? value then Some OverLimit
  else None.

(** ** apps/common/card_utils.py *)

(** A card number is a Python [str]; here its characters are below
    U+0100, where the digits of [\d] are '0' to '9'. *)
Definition is_digit (c : ascii) : bool :=
  let n := nat_of_ascii c in (48 <=? n)%nat && (n <=? 57)%nat.

(** [re.sub(r'\D', '', card_number)] *)
Definition cleaned (card_number : string) : list ascii :=
  filter (fun c => is_digit c = true) (String.list_ascii_of_string card_number).

(** [cleaned[-4:]] *)
Definition last_four_of (digits : list ascii) : list ascii :=
  drop (length digits - 4) digits.

Definition stars (n : nat) : list ascii := replicate n "*"%char.

(** [mask_card_number(card_number)] *)
Definition mask_card_number (card_number : string) : string :=
  if bool_decide (card_number = EmptyString) then EmptyString
  else
    let digits := cleaned card_number in
    if (length digits <? 4)%nat then String.string_of_list_ascii (stars (length digits))
    else
      let last_four := last_four_of digits in
      if (length digits =? 16)%nat then
        String.append "**** **** **** " (String.string_of_list_ascii last_four)
      else if (length digits =? 15)%nat then
        String.append "**** ****** *" (String.string_of_list_ascii last_four)
      else
        String.string_of_list_ascii (stars (length digits - 4) ++ last_four).

(** [get_last_four_digits(card_number)] *)
Definition get_last_four_digits (card_number : string) : string :=
  if bool_decide (card_number = EmptyString) then EmptyString
  else
    let digits := cleaned card_number in
    if (4 <=? length digits)%nat then String.string_of_list_ascii (last_four_of digits)
    else String.string_of_list_ascii digits.

(** [int(d)] for a digit character. *)
Definition int_of_digit (d : ascii) : nat := (nat_of_ascii d - 48)%nat.

Fixpoint digits_of_fuel (fuel n : nat) (acc : list nat) : list nat :=
  match fuel with
  | O => acc
  | S fuel' =>
      if (n <? 10)%nat then n :: acc
      else digits_of_fuel fuel' (n / 10)%nat ((n mod 10)%nat :: acc)
  end.

(** [digits_of(n)] for an integer: the decimal digits of [str(n)]. *)
Definition digits_of (n : nat) : list nat := digits_of_fuel (S n) n [].

(** [l[0::2]] *)
Fixpoint every_other (l : list nat) : list nat :=
  match l with
  | [] => []
  | x :: rest => x :: match rest with
                      | [] => []
                      | _ :: rest' => every_other rest'
                      end
  end.

Definition sum_nat (l : list nat) : nat := foldl Nat.add O l.

(** The inner [luhn_check(card_num)] of [validate_luhn_algorithm]. *)
Definition luhn_check (card_num : list ascii) : bool :=
  let digits := map int_of_digit card_num in
  let odd_digits := every_other (reverse digits) in
  let even_digits := every_other (tail (reverse digits)) in
  let checksum :=
    foldl (fun checksum d => (checksum + sum_nat (digits_of (d * 2)))%nat)
          (sum_nat odd_digits) even_digits in
  (checksum mod 10 =? 0)%nat.

(** [validate_luhn_algorithm(card_number)] *)
Definition validate_luhn_algorithm (card_number : string) : bool :=
  if bool_decide (card_number = EmptyString) then false
  else
    let digits := cleaned card_number in
    if ((length digits <? 13) || (19 <? length digits))%nat then false
    else luhn_check digits.

(** The contribution of a digit that [luhn_check] doubles. *)
Definition luhn_double (d : nat) : nat := sum_nat (digits_of (d * 2)).

(** The checksum of [luhn_check] read along the reversed digits: digits
    at even distance from the end count as they are, the others doubled. *)
Fixpoint luhn_sum (plain : bool) (reversed : list nat) : nat :=
  match reversed with
  | [] => O
  | d :: rest => ((if plain then d else luhn_double d) + luhn_sum (negb plain) rest)%nat
  end.

(** ** Sample data *)

Definition buyer : User := mkUser 7 "buyer" (Some "Buyer").

Definition product_A : Product := mkProduct "A" 100000 10 true.
Definition product_B : Product := mkProduct "B" 2550 3 true.
Definition product_C : Product := mkProduct "C" 99 5 true.

(** Three products and the carts of two buyers; buyer 7 wants 3 of B and
    2 of A. *)
Definition shop : Tables :=
  mkTables {[1 := product_A; 2 := product_B; 3 := product_C]}
           [mkCartItem 7 2 3; mkCartItem 8 1 1; mkCartItem 7 1 2]
           ∅ [] ∅ [].

(** A database without stored functions, as the test database is. *)
Definition world_of (t : Tables) : World := mkWorld t 1 1 [] [] None.

Definition no_proc {R : Type} : Tables -> ProcOutcome R := fun _ => ProcRaise None.

(** The shop with an empty cart for buyer 7. *)
Definition shop_empty_cart : Tables := set_cart_items [mkCartItem 8 1 1] shop.

(** The shop after product B was switched off by an administrator. *)
Definition shop_B_unavailable : Tables :=
  set_products (<[2 := mkProduct "B" 2550 3 false]> (products shop)) shop.

(** The shop after the price of product A went up to 1200.00. *)
Definition shop_repriced : Tables :=
  set_products (<[1 := mkProduct "A" 120000 10 true]> (products shop)) shop.

(** Buyer 7 asks for 20 of product A, of which there are 10. *)
Definition shop_short_of_A : Tables :=
  set_cart_items [mkCartItem 7 2 3; mkCartItem 7 1 20] shop.

(** A cart line that buyer 7 adds from another request while an order
    is being created. *)
Definition late_line : CartItem := mkCartItem 7 3 1.

Definition shop_late_line : Tables := set_cart_items (late_line :: cart_items shop) shop.

(** Order 1 of buyer 7 for 1000.00, already paid by transaction 1. *)
Definition paid_shop : Tables :=
  mkTables (products shop) []
           {[1 := mkOrder 7 100000 Completed]}
           [mkOrderItem 1 1 1 100000]
           {[1 := mkTransaction 1 100000 Card TxSuccess]}
           [].

Definition paid_world : World := mkWorld paid_shop 2 2 [] [] None.

(** An administrator, and the paid shop in a database that has the stored
    function [refund_transaction]. *)
Definition admin : User := mkUser 1 "admin" (Some "Admin").

Definition refund_world : World := mkWorld paid_shop 2 2 ["refund_transaction"] [] None.

(** Order 1 of buyer 7 for 1000.00, waiting for its payment. *)
Definition pending_shop : Tables :=
  mkTables (products shop) []
           {[1 := mkOrder 7 100000 Pending]}
           [mkOrderItem 1 1 1 100000]
           ∅ [].

Definition pending_world : World := mkWorld pending_shop 2 1 [] [] None.

(** A second buyer, and a shop with one product of which there are 10
    units and of which each of the two buyers wants 6. *)
Definition buyer2 : User := mkUser 8 "buyer2" (Some "Buyer").

Definition rush_shop : Tables :=
  mkTables {[1 := product_A]} [mkCartItem 8 1 6; mkCartItem 7 1 6] ∅ [] ∅ [].

(** 1000.00000000000000001 *)
Definition amount_off_by_1e17 : Decimal := mkDecimal 100000000000000000001 (-17).

(** * Properties *)

(** ** The monad *)

Lemma atomic_Raise {A} (body : M A) w e w' :
  atomic body w = (Raise e, w') -> tables w' = tables w.
Proof.
  unfold atomic. destruct (body w) as [[a|e0] w1]; intros H; inversion H; subst.
  reflexivity.
Qed.

Lemma atomic_Ok {A} (body : M A) w a w' :
  atomic body w = (Ok a, w') ->
  exists w1, body w = (Ok a, w1) /\ w' = set_session (session w) w1.
Proof.
  unfold atomic. destruct (body w) as [[a0|e0] w1]; intros H; inversion H; subst.
  eauto.
Qed.

Lemma set_session_same w : set_session (session w) w = w.
Proof. destruct w; reflexivity. Qed.

Lemma set_tables_same w : set_tables (tables w) w = w.
Proof. destruct w; reflexivity. Qed.

Lemma set_faults_same w : set_faults (faults w) w = w.
Proof. destruct w; reflexivity. Qed.

(** ** Order creation: validation failures *)

Lemma exists_false user t :
  filter (fun item => cart_user item = user_id user) (cart_items t) = [] ->
  CartService.exists_ user t = false.
Proof.
  intros H. unfold CartService.exists_. rewrite H.
  apply bool_decide_eq_false. intros Hne. apply Hne. reflexivity.
Qed.

Lemma get_cart_elem user t item product :
  (item, product) ∈ CartService.get_cart user t ->
  item ∈ cart_items t /\ cart_user item = user_id user
  /\ products t !! cart_product item = Some product.
Proof.
  unfold CartService.get_cart. rewrite list_elem_of_omap.
  intros (x & Hx & Hf). case_bool_decide; [|discriminate].
  destruct (products t !! cart_product x) as [p|] eqn:Hp; simpl in Hf; [|discriminate].
  inversion Hf; subst. auto.
Qed.

Lemma exists_true user t item product :
  (item, product) ∈ CartService.get_cart user t ->
  CartService.exists_ user t = true.
Proof.
  intros H. apply get_cart_elem in H as (Hin & Hu & _).
  unfold CartService.exists_. apply bool_decide_eq_true. intros Hnil.
  exact (filter_nil_not_elem_of (fun i => cart_user i = user_id user) _ item Hnil Hu Hin).
Qed.

(** C8. When the buyer has no cart line, [create_order_from_cart] raises
    the [ValueError] 'Корзина пуста' and nothing else runs: the world
    after the call is the world before it, so no order exists, no stock
    has moved and every cart is as it was. *)
Theorem empty_cart_fails_untouched proc user w :
  filter (fun item => cart_user item = user_id user) (cart_items (tables w)) = [] ->
  OrderService.create_order_from_cart proc user w = (Raise (ValueError [EmptyCart]), w).
Proof.
  intros H. unfold OrderService.create_order_from_cart, atomic, bind, query.
  unfold CartService.validate_cart. rewrite (exists_false _ _ H). simpl.
  unfold raise. rewrite set_tables_same, set_session_same, set_faults_same. reflexivity.
Qed.

Lemma empty_cart_fails_untouched_witness :
  OrderService.create_order_from_cart (fun _ => no_proc) buyer (world_of shop_empty_cart)
  = (Raise (ValueError [EmptyCart]), world_of shop_empty_cart).
Proof.
  apply (empty_cart_fails_untouched (fun _ => no_proc) buyer (world_of shop_empty_cart)).
  reflexivity.
Defined.

(** C10. Beyond the empty cart and the short stock there is a third way
    for [create_order_from_cart] to fail: when a line of the cart is for a
    product whose [is_available] flag is off, the call raises a
    [ValueError] that names the product, before anything is written (the
    world is unchanged), whatever the stock of the product is. *)
Theorem unavailable_product_blocks_order proc user w item product :
  (item, product) ∈ CartService.get_cart user (tables w) ->
  is_available product = false ->
  exists errors,
    OrderService.create_order_from_cart proc user w = (Raise (ValueError errors), w)
    /\ ProductUnavailable (name product) ∈ errors.
Proof.
  intros Hin Hav.
  exists (omap CartService.line_error (CartService.get_cart user (tables w))).
  assert (Hmem : ProductUnavailable (name product)
                 ∈ omap CartService.line_error (CartService.get_cart user (tables w))).
  { apply list_elem_of_omap. exists (item, product). split; [exact Hin|].
    simpl. rewrite Hav. reflexivity. }
  split; [|exact Hmem].
  unfold OrderService.create_order_from_cart, atomic, bind, query.
  unfold CartService.validate_cart. rewrite (exists_true _ _ _ _ Hin). simpl.
  destruct (omap CartService.line_error (CartService.get_cart user (tables w))) as [|m l] eqn:E.
  - inversion Hmem.
  - simpl. unfold raise. rewrite set_tables_same, set_session_same, set_faults_same.
    reflexivity.
Qed.

Lemma unavailable_product_blocks_order_witness :
  exists errors,
    OrderService.create_order_from_cart (fun _ => no_proc) buyer (world_of shop_B_unavailable)
    = (Raise (ValueError errors), world_of shop_B_unavailable)
    /\ ProductUnavailable "B" ∈ errors.
Proof.
  apply (unavailable_product_blocks_order (fun _ => no_proc) buyer
           (world_of shop_B_unavailable)
           (mkCartItem 7 2 3) (mkProduct "B" 2550 3 false)).
  - vm_compute. left.
  - reflexivity.
Defined.

(** ** Order creation: atomicity *)

(** C1. When [create_order_from_cart] raises, for whatever reason (the
    empty cart, a line short of stock, or a database error after some lines
    were already written), the tables after the call are the tables before
    it: no order row, no order line and no stock decrement is left. *)
Theorem create_order_failure_leaves_no_trace proc user w e w' :
  OrderService.create_order_from_cart proc user w = (Raise e, w') ->
  tables w' = tables w.
Proof. apply atomic_Raise. Qed.

Lemma create_order_failure_leaves_no_trace_witness :
  let w := set_faults (Some 4%nat) (world_of shop) in
  let r := OrderService.create_order_from_cart (fun _ => no_proc) buyer w in
  r.1 = Raise (DatabaseError None) /\ tables r.2 = tables w.
Proof.
  intros w r. split.
  - vm_compute. reflexivity.
  - apply (create_order_failure_leaves_no_trace (fun _ => no_proc) buyer w
             (DatabaseError None)).
    vm_compute. reflexivity.
Defined.

(** ** The stock ledger *)

Lemma decrease_stock_Ok p q p' :
  decrease_stock p q = Ok p' ->
  q <= stock_quantity p /\ stock_quantity p' = stock_quantity p - q.
Proof.
  unfold decrease_stock. destruct (stock_quantity p <? q) eqn:E; [discriminate|].
  intros H. inversion H; subst. simpl. apply Z.ltb_ge in E. lia.
Qed.

Lemma apply_op_nonneg p op :
  0 <= stock_quantity p -> release_nonneg op -> 0 <= stock_quantity (apply_op p op).
Proof.
  intros Hp Hop. destruct op as [q|q]; simpl.
  - destruct (decrease_stock p q) as [p'|e] eqn:E; [|exact Hp].
    apply decrease_stock_Ok in E. lia.
  - simpl in Hop. lia.
Qed.

Lemma decrease_stock_zero_clears_flag p q p' :
  decrease_stock p q = Ok p' -> stock_quantity p' = 0 -> is_available p' = false.
Proof.
  unfold decrease_stock. destruct (stock_quantity p <? q); [discriminate|].
  intros H. inversion H; subst. simpl. intros ->. reflexivity.
Qed.

Lemma increase_stock_restores_flag p q : is_available (increase_stock p q) = true.
Proof. unfold increase_stock. simpl. destruct (is_available p); reflexivity. Qed.

(** C4, on the code as it is. The order loop tests the stock of the
    product row that was read with the cart and writes that stock minus
    the quantity; it neither reads nor locks the row again. Buyers 7 and 8
    each want 6 of the 10 units of product A. The call of buyer 8 has read
    its cart when the call of buyer 7 runs and commits, which leaves 4
    units. The rest of buyer 8's call then reserves 6 units with 4
    available: it succeeds and writes a stock of 4, so that two orders of
    6 units each stand against a stock that went from 10 to 4.
    [Product.decrease_stock] on the row as it is by then raises. *)
Theorem order_loop_reserves_on_stale_stock :
  let w0 := world_of rush_shop in
  let snapshot := CartService.get_cart buyer2 (tables w0) in
  exists w1 w2,
    snapshot = [(mkCartItem 8 1 6, product_A)]
    /\ OrderService.create_order_from_cart (fun _ => no_proc) buyer w0
       = (Ok (1, 600000), w1)
    /\ products (tables w1) !! 1 = Some (mkProduct "A" 100000 4 true)
    /\ decrease_stock (mkProduct "A" 100000 4 true) 6
       = Raise (ValueError [NotEnoughStock 4 6])
    /\ order_from_snapshot buyer2 snapshot w1 = (Ok (2, 600000), w2)
    /\ products (tables w2) !! 1 = Some (mkProduct "A" 100000 4 true)
    /\ order_items (tables w2) = [mkOrderItem 1 1 6 100000; mkOrderItem 2 1 6 100000].
Proof.
  intros w0 snapshot. eexists _, _.
  split; [vm_compute; reflexivity|].
  split; [vm_compute; reflexivity|].
  split; [vm_compute; reflexivity|].
  split; [vm_compute; reflexivity|].
  split; [vm_compute; reflexivity|].
  split; vm_compute; reflexivity.
Qed.

(** C7, on the code as it is. The fallback order creation writes the new
    stock with a queryset [update] of [stock_quantity] alone: buyer 7
    orders the 3 units of product B that are left, the order is created,
    and product B is left with stock 0 and [is_available] still set. *)
Theorem order_creation_leaves_flag_at_zero_stock :
  exists r w',
    OrderService.create_order_from_cart (fun _ => no_proc) buyer (world_of shop) = (Ok r, w')
    /\ products (tables w') !! 2 = Some (mkProduct "B" 2550 0 true).
Proof. eexists _, _. split; vm_compute; reflexivity. Qed.

(** C3, on the code as it is. [create_payment] never looks at the status
    of the order: paying the already Completed order 1 again, with the
    right amount and no stored function in the database, succeeds and
    leaves the order with two Success transactions. *)
Theorem create_payment_pays_completed_order_again :
  exists w',
    PaymentService.create_payment (fun _ _ _ => no_proc) 1 (of_hundredths 100000) Card
      (Some buyer) paid_world = (Ok (Some 2, TxSuccess), w')
    /\ (can_be_paid <$> orders (tables paid_world) !! 1) = Some false
    /\ transactions (tables w') !! 1 = Some (mkTransaction 1 100000 Card TxSuccess)
    /\ transactions (tables w') !! 2 = Some (mkTransaction 1 100000 Card TxSuccess).
Proof.
  eexists. split; [vm_compute; reflexivity|].
  split; [vm_compute; reflexivity|].
  split; vm_compute; reflexivity.
Qed.

(** ** Running the monad backwards *)

Lemma bind_Ok {A B} (m : M A) (k : A -> M B) w b w' :
  bind m k w = (Ok b, w') ->
  exists a w1, m w = (Ok a, w1) /\ k a w1 = (Ok b, w').
Proof.
  unfold bind. destruct (m w) as [[a|e] w1]; intros H; [eauto|discriminate].
Qed.

Lemma execute_Ok {A} (f : Tables -> Res (A * Tables)) w a w' :
  execute f w = (Ok a, w') ->
  f (tables w) = Ok (a, tables w')
  /\ orders_id_seq w' = orders_id_seq w
  /\ transactions_id_seq w' = transactions_id_seq w
  /\ pg_proc w' = pg_proc w
  /\ session w' = session w.
Proof.
  unfold execute. destruct (faults w) as [[|n]|];
    try discriminate;
    destruct (f (tables w)) as [[a0 t']|e]; intros H; inversion H; subst; simpl; auto.
Qed.

Lemma try_except_Ok {A} (body : M A) (handler : Exn -> M A) w a w' :
  (forall e w1, (handler e w1).1 <> Ok a) ->
  try_except body handler w = (Ok a, w') -> body w = (Ok a, w').
Proof.
  unfold try_except. intros Hh. destruct (body w) as [[a0|e] w1]; [auto|].
  intros H. exfalso. apply (Hh e w1). rewrite H. reflexivity.
Qed.

Lemma then_raise_not_Ok {A B} (m : M A) (e : Exn) (b : B) w :
  (bind m (fun _ => raise e) w).1 <> Ok b.
Proof.
  unfold bind, raise. destruct (m w) as [[a|e0] w1]; simpl; discriminate.
Qed.

(** ** Order creation: what a successful call writes *)

Lemma order_lines_Ok order cart : forall acc w total w',
  order_lines order cart acc w = (Ok total, w') ->
  total = acc + snapshot_total cart
  /\ products (tables w') = foldl reserve_line (products (tables w)) cart
  /\ cart_items (tables w') = cart_items (tables w)
  /\ orders (tables w') = orders (tables w)
  /\ order_items (tables w') = order_items (tables w) ++ map (snapshot_line order) cart
  /\ transactions (tables w') = transactions (tables w)
  /\ logs (tables w') = logs (tables w).
Proof.
  induction cart as [|[item product] rest IH]; intros acc w total w' H.
  - inversion H; subst. simpl. rewrite app_nil_r. repeat split; lia.
  - simpl in H. destruct (stock_quantity product <? cart_quantity item); [discriminate|].
    apply bind_Ok in H as (u1 & w1 & H1 & H).
    apply bind_Ok in H as (u2 & w2 & H2 & H).
    apply execute_Ok in H1 as (H1 & _). apply execute_Ok in H2 as (H2 & _).
    destruct (negb (decimal_fits 12 _)); [discriminate|].
    destruct (orders (tables w) !! _); [|discriminate].
    destruct (products (tables w) !! _); [|discriminate].
    simpl in H1. injection H1 as _ E1. injection H2 as _ E2.
    apply IH in H as (Ht & Hp & Hc & Ho & Hi & Hx & Hl).
    rewrite <- E2 in Hp, Hc, Ho, Hi, Hx, Hl. simpl in *.
    rewrite <- E1 in Hp, Hc, Ho, Hi, Hx, Hl. simpl in *.
    repeat split; try assumption.
    + rewrite Ht. lia.
    + rewrite Hi, <- app_assoc. reflexivity.
Qed.

Lemma order_from_snapshot_Ok user cart w order total w' :
  order_from_snapshot user cart w = (Ok (order, total), w') ->
  orders (tables w) !! order = None
  /\ total = snapshot_total cart
  /\ products (tables w') = foldl reserve_line (products (tables w)) cart
  /\ cart_items (tables w')
     = filter (fun item => cart_user item ≠ user_id user) (cart_items (tables w))
  /\ orders (tables w')
     = <[order := mkOrder (user_id user) total Pending]> (orders (tables w))
  /\ order_items (tables w') = order_items (tables w) ++ map (snapshot_line order) cart
  /\ transactions (tables w') = transactions (tables w)
  /\ logs (tables w') = logs (tables w).
Proof.
  unfold order_from_snapshot. destruct (bool_decide (cart = [])); [discriminate|].
  intros H.
  apply bind_Ok in H as (i & w1 & Hc & H).
  apply try_except_Ok in H; [|intros; apply then_raise_not_Ok].
  apply bind_Ok in H as (tot & w2 & Hl & H).
  apply bind_Ok in H as (u3 & w3 & Hs & H).
  apply bind_Ok in H as (u4 & w4 & Hd & H).
  injection H as Ei Et Ew. subst i tot w4.
  unfold Order_create in Hc. apply execute_Ok in Hc as (Hc & _). simpl in Hc.
  destruct (orders (tables w) !! orders_id_seq w) eqn:Hfresh; [discriminate|].
  injection Hc as Ei E1. rewrite Ei in *.
  apply order_lines_Ok in Hl as (Ht & Hp & Hca & Ho & Hi & Hx & Hlg).
  apply execute_Ok in Hs as (Hs & _).
  rewrite Ho, <- E1 in Hs. simpl in Hs. rewrite lookup_insert_eq in Hs.
  simpl in Hs. destruct (negb (decimal_fits 14 total)); [discriminate|].
  injection Hs as _ E3.
  apply execute_Ok in Hd as (Hd & _). injection Hd as _ E4.
  rewrite <- E4. simpl. rewrite <- E3. simpl.
  rewrite Hp, Hca, Hi, Hx, Hlg, <- E1. simpl.
  rewrite insert_insert_eq.
  repeat split; try reflexivity; [exact Hfresh | lia].
Qed.

Lemma set_user_context_run user w a w' :
  (set_current_user_id (user_id user);;; set_role_of user) w = (a, w') ->
  tables w' = tables w /\ pg_proc w' = pg_proc w /\ faults w' = faults w
  /\ orders_id_seq w' = orders_id_seq w /\ transactions_id_seq w' = transactions_id_seq w.
Proof.
  unfold bind, set_current_user_id, set_role_of, set_current_role, set_config, ret, raise.
  destruct (role user); intros H; inversion H; subst; simpl; auto.
Qed.

Lemma set_user_context_Ok user w a w' :
  PaymentService.set_user_context user w = (Ok a, w') ->
  role_is_set user
  /\ tables w' = tables w /\ pg_proc w' = pg_proc w /\ faults w' = faults w
  /\ transactions_id_seq w' = transactions_id_seq w.
Proof.
  unfold PaymentService.set_user_context, set_role_of, set_current_user_id,
    set_current_role, set_config, ret, raise, bind.
  destruct user as [[uid un [r|]]|]; simpl; intros H; try discriminate;
    injection H as _ <-; simpl; eauto 10.
Qed.

(** On the fallback path a successful [create_order_from_cart] is a
    successful [order_from_snapshot] on the cart read from the tables the
    call started with, followed by the log row. *)
Lemma create_order_fallback_Ok proc user w r w' :
  "create_order_from_cart" ∉ pg_proc w ->
  OrderService.create_order_from_cart proc user w = (Ok r, w') ->
  exists w1 w2,
    tables w1 = tables w
    /\ order_from_snapshot user (CartService.get_cart user (tables w)) w1 = (Ok r, w2)
    /\ tables w'
       = set_logs (logs (tables w2) ++ [mkLog INFO "order_created" (Some (user_id user))])
                  (tables w2).
Proof.
  intros Hproc H. apply atomic_Ok in H as (wz & H & ->).
  apply bind_Ok in H as (v & wa & Hq & H).
  unfold query in Hq. injection Hq as <- <-.
  destruct (CartService.validate_cart user (tables w)) as [is_valid errors].
  destruct is_valid; simpl in H; [|discriminate].
  apply bind_Ok in H as (u1 & wb & Hctx & H).
  apply bind_Ok in H as (u2 & wc & Hrole & H).
  assert (Hsame : tables wc = tables w /\ pg_proc wc = pg_proc w).
  { pose proof (set_user_context_run user w (Ok u2) wc) as Hrun.
    unfold bind in Hrun at 1. rewrite Hctx in Hrun.
    destruct (Hrun Hrole) as (Ht & Hp & _). auto. }
  destruct Hsame as [Ht Hp].
  apply bind_Ok in H as (present & wd & Hpe & H).
  unfold _procedure_exists in Hpe. injection Hpe as <- <-.
  rewrite Hp in H. rewrite bool_decide_eq_false_2 in H by exact Hproc. simpl in H.
  apply bind_Ok in H as (r0 & we & Hpy & H).
  apply bind_Ok in H as (u3 & wf & Hlog & H).
  injection H as <- <-.
  unfold _create_order_from_cart_python in Hpy.
  apply bind_Ok in Hpy as (cart & wg & Hq & Hpy).
  unfold query in Hq. injection Hq as <- <-.
  rewrite Ht in Hpy.
  exists wc, we. split; [exact Ht|]. split; [exact Hpy|].
  apply execute_Ok in Hlog as (Hlog & _). injection Hlog as _ Elog.
  simpl. symmetry. exact Elog.
Qed.

Lemma filter_none {A} (P : A -> Prop) `{forall x, Decision (P x)} (l : list A) :
  (forall x, x ∈ l -> ~ P x) -> filter P l = [].
Proof.
  induction l as [|a l IH]; intros Hl; [reflexivity|].
  rewrite filter_cons_False by (apply Hl; left).
  apply IH. intros x Hx. apply Hl. right. exact Hx.
Qed.

Lemma filter_all {A} (P : A -> Prop) `{forall x, Decision (P x)} (l : list A) :
  (forall x, x ∈ l -> P x) -> filter P l = l.
Proof.
  induction l as [|a l IH]; intros Hl; [reflexivity|].
  rewrite filter_cons_True by (apply Hl; left).
  f_equal. apply IH. intros x Hx. apply Hl. right. exact Hx.
Qed.

(** C5. A successful order creation persists an order whose
    [total_amount] is the sum, over the lines of the cart snapshot, of
    quantity times the price read with the snapshot, and the lines of that
    order are the lines of the snapshot, each with that price as
    [price_at_purchase]. This holds for the part of
    [_create_order_from_cart_python] that follows the snapshot, whatever
    the products look like by then, and for [create_order_from_cart] when
    the database has no stored function. Order lines are assumed to refer
    to existing orders (the foreign key). *)
Theorem order_total_is_snapshot_sum proc user cart w order total w' :
  (forall it, it ∈ order_items (tables w) -> is_Some (orders (tables w) !! item_order it)) ->
  (order_from_snapshot user cart w = (Ok (order, total), w') ->
   persisted_from user cart order total (tables w'))
  /\ ("create_order_from_cart" ∉ pg_proc w ->
      OrderService.create_order_from_cart proc user w = (Ok (order, total), w') ->
      persisted_from user (CartService.get_cart user (tables w)) order total (tables w')).
Proof.
  intros Hfk.
  assert (Hitems : forall (c : list (CartItem * Product)) (t : Tables),
            orders (tables w) !! order = None ->
            order_items t = order_items (tables w) ++ map (snapshot_line order) c ->
            filter (fun it => item_order it = order) (order_items t)
            = map (snapshot_line order) c).
  { intros c t Hfresh ->. rewrite filter_app.
    rewrite (filter_none (fun it => item_order it = order)).
    - simpl. apply filter_all. intros x Hx.
      apply list_elem_of_In, in_map_iff in Hx as (l & <- & _). reflexivity.
    - intros it Hit Heq. destruct (Hfk it Hit) as [o Hsome].
      rewrite Heq, Hfresh in Hsome. discriminate. }
  split.
  - intros H.
    apply order_from_snapshot_Ok in H as (Hfresh & Htot & _ & _ & Ho & Hi & _).
    split; [exact Htot|]. split.
    + rewrite Ho, lookup_insert_eq, Htot. reflexivity.
    + apply Hitems; assumption.
  - intros Hproc H.
    apply create_order_fallback_Ok in H as (w1 & w2 & Ht & H & Hw'); [|exact Hproc].
    apply order_from_snapshot_Ok in H as (Hfresh & Htot & _ & _ & Ho & Hi & _).
    rewrite Ht in Hfresh, Ho, Hi.
    split; [exact Htot|]. rewrite Hw'. simpl. split.
    + rewrite Ho, lookup_insert_eq, Htot. reflexivity.
    + apply Hitems; assumption.
Qed.

Lemma order_total_is_snapshot_sum_witness :
  exists w',
    order_from_snapshot buyer (CartService.get_cart buyer shop) (world_of shop_repriced)
    = (Ok (1, 207650), w')
    /\ orders (tables w') !! 1 = Some (mkOrder 7 207650 Pending)
    /\ filter (fun it => item_order it = 1) (order_items (tables w'))
       = [mkOrderItem 1 2 3 2550; mkOrderItem 1 1 2 100000].
Proof.
  eexists. split; [vm_compute; reflexivity|].
  refine (proj2 (proj1 (order_total_is_snapshot_sum (fun _ => no_proc) buyer
                          (CartService.get_cart buyer shop) (world_of shop_repriced)
                          1 207650 _ _) _)).
  - intros it H. inversion H.
  - vm_compute. reflexivity.
Defined.

(** Without the transaction around it, the fallback alone does leave a
    reservation behind: buyer 7 asks for 3 of B and 20 of A, the line for
    B is written, the line for A raises, the handler deletes the order
    and its lines, and product B stays at stock 0. *)
Example python_fallback_alone_keeps_reservation :
  exists w',
    _create_order_from_cart_python buyer (world_of shop_short_of_A)
    = (Raise (ValueError [InsufficientStock "A" 20 10]), w')
    /\ orders (tables w') = ∅
    /\ order_items (tables w') = []
    /\ stock_quantity <$> products (tables w') !! 2 = Some 0
    /\ stock_quantity <$> products shop_short_of_A !! 2 = Some 3.
Proof.
  eexists. split; [vm_compute; reflexivity|].
  split; [vm_compute; reflexivity|].
  split; [vm_compute; reflexivity|].
  split; vm_compute; reflexivity.
Qed.

(** ** Order creation: the cart afterwards *)

(** C9 as the specification words it does not hold. The snapshot is taken
    from the shop's tables; before the rest of the function runs, another
    request of buyer 7 commits [late_line]. The order is created, and
    [late_line], which was not in the snapshot, is gone from the cart
    table. *)
Lemma cart_clear_drops_late_line :
  let snapshot := CartService.get_cart buyer shop in
  let w := world_of shop_late_line in
  (late_line ∉ map fst snapshot)
  /\ (late_line ∈ cart_items (tables w))
  /\ exists r w',
       order_from_snapshot buyer snapshot w = (Ok r, w')
       /\ late_line ∉ cart_items (tables w').
Proof.
  intros snapshot w. split; [|split].
  - apply (bool_decide_unpack _). vm_compute. reflexivity.
  - left.
  - eexists _, _. split; [vm_compute; reflexivity|].
    apply (bool_decide_unpack _). vm_compute. reflexivity.
Qed.

(** C9, amended. A successful order creation removes every cart line of
    the buyer that the cart table holds when the clearing statement runs,
    whether the line was in the snapshot or was added after it, and keeps
    the lines of the other buyers as they are. This holds for the part of
    [_create_order_from_cart_python] that follows the snapshot, for any
    snapshot, and for [create_order_from_cart] run on its own. *)
Theorem cart_cleared_for_whole_buyer proc user cart w r w' :
  (order_from_snapshot user cart w = (Ok r, w') ->
   cart_items (tables w')
   = filter (fun item => cart_user item ≠ user_id user) (cart_items (tables w)))
  /\ ("create_order_from_cart" ∉ pg_proc w ->
      OrderService.create_order_from_cart proc user w = (Ok r, w') ->
      cart_items (tables w')
      = filter (fun item => cart_user item ≠ user_id user) (cart_items (tables w))).
Proof.
  destruct r as [order total]. split.
  - intros H. apply order_from_snapshot_Ok in H as (_ & _ & _ & Hc & _). exact Hc.
  - intros Hproc H.
    apply create_order_fallback_Ok in H as (w1 & w2 & Ht & H & Hw'); [|exact Hproc].
    apply order_from_snapshot_Ok in H as (_ & _ & _ & Hc & _).
    rewrite Hw'. simpl. rewrite Hc, Ht. reflexivity.
Qed.

Lemma cart_cleared_for_whole_buyer_witness :
  exists w',
    order_from_snapshot buyer (CartService.get_cart buyer shop) (world_of shop_late_line)
    = (Ok (1, 207650), w')
    /\ cart_items (tables w') = [mkCartItem 8 1 1].
Proof.
  eexists. split; [vm_compute; reflexivity|].
  refine (proj1 (cart_cleared_for_whole_buyer (fun _ => no_proc) buyer
                   (CartService.get_cart buyer shop) (world_of shop_late_line)
                   (1, 207650) _) _).
  vm_compute. reflexivity.
Defined.

(** ** Floats: the comparison of amounts *)

Lemma round_half_even_bound a b :
  0 < b -> 2 * Z.abs (a - b * round_half_even a b) <= b.
Proof.
  intros Hb. unfold round_half_even.
  pose proof (Z.div_mod a b ltac:(lia)) as Hdm.
  pose proof (Z.mod_pos_bound a b Hb) as Hr.
  set (q := a / b) in *. set (r := a mod b) in *.
  destruct (Z.ltb_spec (2 * r) b); [lia|].
  destruct (Z.ltb_spec b (2 * r)); [lia|].
  destruct (Z.even q); lia.
Qed.

Lemma floor_log2_hundredths n :
  0 < n < 10 ^ 14 -> floor_log2_ratio n 100 <= 39.
Proof.
  intros Hn. unfold floor_log2_ratio.
  assert (Hl : Z.log2 n < 47).
  { apply Z.log2_lt_pow2; [lia|]. change (2 ^ 47) with 140737488355328.
    change (10 ^ 14) with 100000000000000 in Hn. lia. }
  change (Z.log2 100) with 6.
  destruct (Z.leb_spec 0 (Z.log2 n - 6)) as [Hg|Hg]; [|destruct (_ <=? _); lia].
  destruct (Z.leb_spec (100 * 2 ^ (Z.log2 n - 6)) n) as [Hle|Hle]; [|lia].
  destruct (Z.le_gt_cases (Z.log2 n - 6) 39) as [|Hbig]; [assumption|exfalso].
  assert (2 ^ 40 <= 2 ^ (Z.log2 n - 6)) by (apply Z.pow_le_mono_r; lia).
  change (2 ^ 40) with 1099511627776 in *.
  change (10 ^ 14) with 100000000000000 in Hn. lia.
Qed.

(** The binary64 of an amount of fewer than 15 digits in hundredths is
    finite and within 2^-14 of the amount. *)
Lemma float_of_hundredths_close h :
  Z.abs h < 10 ^ 14 ->
  exists F, float (of_hundredths h) = Finite F
            /\ 2 * Z.abs (h * 2 ^ 1074 - 100 * F) <= 100 * 2 ^ 1061.
Proof.
  intros Hh. unfold float, of_hundredths. simpl coefficient. simpl exponent.
  destruct (Z.eqb_spec h 0) as [->|Hnz].
  { exists 0. split; [reflexivity|]. rewrite Z.mul_0_l, Z.mul_0_r. simpl Z.abs.
    assert (0 < 2 ^ 1061) by (apply Z.pow_pos_nonneg; lia). lia. }
  change (0 <=? -2) with false. cbv iota. change (10 ^ (- -2)) with 100.
  assert (Hn : 0 < Z.abs h < 10 ^ 14) by lia.
  pose proof (floor_log2_hundredths _ Hn) as Hfl.
  unfold binary64_of_ratio.
  set (e := Z.max (floor_log2_ratio (Z.abs h) 100 - 52) (-1074)).
  assert (He : -1074 <= e <= -13) by (unfold e; lia).
  destruct (Z.ltb_spec e 0) as [_|]; [|lia].
  set (m := round_half_even (Z.abs h * 2 ^ (- e)) 100).
  pose proof (round_half_even_bound (Z.abs h * 2 ^ (- e)) 100 ltac:(lia)) as Hm.
  fold m in Hm.
  assert (HT : 2 ^ 1074 = 2 ^ (- e) * 2 ^ (e + 1074)).
  { rewrite <- Z.pow_add_r by lia. f_equal. lia. }
  assert (HU : 2 ^ (e + 1074) <= 2 ^ 1061) by (apply Z.pow_le_mono_r; lia).
  assert (HL : 0 < 2 ^ (e + 1074)) by (apply Z.pow_pos_nonneg; lia).
  rewrite HT. clear HT.
  generalize dependent (2 ^ (e + 1074)). intros L HU HL.
  generalize dependent (2 ^ (- e)). intros K m Hm.
  generalize dependent (2 ^ 1061). intros U HU.
  destruct (Z.ltb_spec h 0) as [Hneg|Hpos].
  - exists (- (m * L)). split; [reflexivity|].
    replace (h * (K * L) - 100 * - (m * L)) with (- ((Z.abs h * K - 100 * m) * L)) by lia.
    rewrite Z.abs_opp, Z.abs_mul, (Z.abs_eq L) by lia.
    apply Z.le_trans with (100 * L); [|lia].
    rewrite Z.mul_assoc. apply Z.mul_le_mono_nonneg_r; lia.
  - exists (m * L). split; [reflexivity|].
    replace (h * (K * L) - 100 * (m * L)) with ((Z.abs h * K - 100 * m) * L) by lia.
    rewrite Z.abs_mul, (Z.abs_eq L) by lia.
    apply Z.le_trans with (100 * L); [|lia].
    rewrite Z.mul_assoc. apply Z.mul_le_mono_nonneg_r; lia.
Qed.

(** On amounts of fewer than 15 digits in hundredths the conversion to
    [float] is injective: comparing the floats is comparing the amounts. *)
Lemma float_of_hundredths_inj h1 h2 :
  Z.abs h1 < 10 ^ 14 -> Z.abs h2 < 10 ^ 14 ->
  float (of_hundredths h1) = float (of_hundredths h2) -> h1 = h2.
Proof.
  intros H1 H2 Heq.
  destruct (float_of_hundredths_close h1 H1) as (F1 & E1 & B1).
  destruct (float_of_hundredths_close h2 H2) as (F2 & E2 & B2).
  rewrite E1, E2 in Heq. injection Heq as <-.
  assert (HT : 2 ^ 1074 = 8192 * 2 ^ 1061).
  { change 8192 with (2 ^ 13). rewrite <- Z.pow_add_r by lia. reflexivity. }
  assert (HU : 0 < 2 ^ 1061) by (apply Z.pow_pos_nonneg; lia).
  rewrite HT in B1, B2. generalize dependent (2 ^ 1061). intros U B1 B2 _ HU.
  nia.
Qed.

(** ** Payments *)

(** ** Payments: the amount check *)

Lemma create_payment_without_role proc order_id amount payment_method u w :
  role u = None ->
  PaymentService.create_payment proc order_id amount payment_method (Some u) w
  = (Raise RelatedObjectDoesNotExist, w).
Proof.
  intros Hr. destruct w as [t os ts pp ss fl].
  unfold PaymentService.create_payment, PaymentService.set_user_context, set_role_of,
    atomic, set_current_user_id, set_config, raise, bind.
  rewrite Hr. reflexivity.
Qed.

Lemma mismatch_rejected proc order_id amount payment_method user w order :
  role_is_set user ->
  orders (tables w) !! order_id = Some order ->
  float amount <> float (of_hundredths (total_amount order)) ->
  rejected (PaymentService.create_payment proc order_id amount payment_method user w) w.
Proof.
  intros Hrole Ho Hne. unfold rejected.
  destruct w as [t os ts pp ss fl]. simpl in Ho.
  unfold PaymentService.create_payment, PaymentService.validate_amount,
    PaymentService.set_user_context, set_role_of, atomic, try_except, Order_get,
    Log_create, execute, set_current_user_id, set_current_role, set_config, raise, ret,
    bind.
  destruct user as [[uid un [r|]]|]; simpl in *;
    [|destruct Hrole as [r Hr]; discriminate|];
    rewrite Ho; simpl;
    rewrite (bool_decide_eq_true_2 _ Hne); simpl;
    destruct fl as [[|n]|]; simpl;
    eexists _, _; (repeat split; try reflexivity); intros; congruence.
Qed.

(** C2, amended. [create_payment] compares [float(amount)] with
    [float(order.total_amount)]: it goes on only when the two binary64
    values are equal, and an amount whose float differs is rejected. For
    the amounts the payment serializer produces (two decimal places, fewer
    than 15 digits) the floats differ whenever the amounts differ, so every
    such amount other than the total, the total minus 0.01 included, is
    rejected. A rejected call raises the amount-mismatch [ValueError]
    (unless the database fails on the warning log row, which raises
    instead), writes no transaction and leaves every table as it was.
    This is for a call without a user or with a user whose role is set; a
    user object without a role makes the call raise
    [RelatedObjectDoesNotExist] before the order is read, and then too
    nothing is written. For no user at all does a call with an amount
    whose float differs return. *)
Theorem create_payment_rejects_mismatch proc order_id amount payment_method user w order :
  orders (tables w) !! order_id = Some order ->
  let run := PaymentService.create_payment proc order_id amount payment_method user w in
  (role_is_set user ->
   float amount <> float (of_hundredths (total_amount order)) -> rejected run w)
  /\ (role_is_set user ->
      forall h,
        amount = of_hundredths h -> Z.abs h < 10 ^ 14 ->
        Z.abs (total_amount order) < 10 ^ 14 -> h <> total_amount order ->
        rejected run w)
  /\ (forall r w', run = (Ok r, w') ->
        float amount = float (of_hundredths (total_amount order)))
  /\ (forall u, user = Some u -> role u = None ->
        run = (Raise RelatedObjectDoesNotExist, w)).
Proof.
  intros Ho run. split; [|split; [|split]].
  - intros Hrole Hne. eapply mismatch_rejected; eassumption.
  - intros Hrole h -> Hh Ht Hne. eapply mismatch_rejected; [eassumption..|].
    intros Heq. apply Hne. apply float_of_hundredths_inj; assumption.
  - intros r w' Hrun.
    destruct (decide (float amount = float (of_hundredths (total_amount order))))
      as [|Hne]; [assumption|exfalso].
    assert (Hcases : role_is_set user \/ exists u, user = Some u /\ role u = None).
    { destruct user as [u|]; [|left; exact I].
      destruct (role u) as [r0|] eqn:Hr; [left; simpl; rewrite Hr; eauto|right; eauto]. }
    destruct Hcases as [Hrole|(u & -> & Hr)].
    + destruct (mismatch_rejected proc order_id amount payment_method user w order
                  Hrole Ho Hne) as (e & w1 & Hrej & _).
      fold run in Hrej. rewrite Hrun in Hrej. discriminate.
    + unfold run in Hrun. rewrite create_payment_without_role in Hrun by exact Hr.
      discriminate.
  - intros u -> Hr. apply create_payment_without_role. exact Hr.
Qed.

Lemma create_payment_rejects_mismatch_witness :
  rejected
    (PaymentService.create_payment (fun _ _ _ => no_proc) 1 (of_hundredths 99999) Card
       (Some buyer) pending_world)
    pending_world.
Proof.
  refine (proj1 (proj2 (create_payment_rejects_mismatch (fun _ _ _ => no_proc) 1
            (of_hundredths 99999) Card (Some buyer) pending_world
            (mkOrder 7 100000 Pending) _)) _ 99999 _ _ _ _).
  - reflexivity.
  - exists "Buyer". reflexivity.
  - reflexivity.
  - reflexivity.
  - reflexivity.
  - discriminate.
Defined.

(** C2 as the specification words it does not hold. The amount
    1000.00000000000000001 is not equal to the total 1000.00 as a decimal,
    but both convert to the float 1000.0: the payment is accepted, a
    Success transaction is written and the order becomes Completed. *)
Lemma float_comparison_accepts_unequal_amount :
  exact_decimal_equal amount_off_by_1e17 (of_hundredths 100000) = false
  /\ exists w',
       PaymentService.create_payment (fun _ _ _ => no_proc) 1 amount_off_by_1e17 Card
         (Some buyer) pending_world = (Ok (Some 1, TxSuccess), w')
       /\ transactions (tables w') !! 1 = Some (mkTransaction 1 100000 Card TxSuccess)
       /\ orders (tables w') !! 1 = Some (mkOrder 7 100000 Completed).
Proof.
  split; [vm_compute; reflexivity|].
  eexists. split; [vm_compute; reflexivity|].
  split; vm_compute; reflexivity.
Qed.

(** ** Refunds *)

Lemma foldl_release_stock items : forall ps pk,
  stock_quantity <$> (foldl release_line ps items !! pk)
  = (fun p => stock_quantity p + ordered_quantity pk items) <$> (ps !! pk).
Proof.
  induction items as [|it items IH]; intros ps pk; simpl.
  - unfold ordered_quantity. simpl.
    destruct (ps !! pk); simpl; [apply (f_equal Some); lia|reflexivity].
  - rewrite IH. unfold release_line. rewrite lookup_alter.
    unfold ordered_quantity. simpl. fold (ordered_quantity pk items).
    case_decide as Hd; case_bool_decide as Hb; try congruence.
    subst pk. destruct (ps !! item_product it); simpl;
      [apply (f_equal Some); lia|reflexivity].
Qed.

(** A call of the service that returns: the role of the user was set,
    the stored function was there, it returned a row, and the tables are
    the ones it left, with the log row of the service added. *)
Lemma refund_transaction_Ok proc transaction_id user w message w' :
  PaymentService.refund_transaction proc transaction_id user w = (Ok message, w') ->
  role_is_set user
  /\ "refund_transaction" ∈ pg_proc w
  /\ exists t',
       proc transaction_id (tables w) = ProcReturn t' (Some message)
       /\ tables w'
          = set_logs (logs t' ++ [mkLog INFO "transaction_refunded" (user_id <$> user)]) t'.
Proof.
  intros H. apply atomic_Ok in H as (wz & H & ->).
  apply bind_Ok in H as (u & w1 & Hctx & H).
  apply set_user_context_Ok in Hctx as (Hrole & Ht & Hp & _).
  apply try_except_Ok in H; [|intros; apply then_raise_not_Ok].
  apply bind_Ok in H as (result & w2 & Hcall & H).
  unfold callproc in Hcall. apply execute_Ok in Hcall as (Hcall & _).
  rewrite Hp, Ht in Hcall.
  case_bool_decide as Hin; [|discriminate]. split; [exact Hrole|]. split; [exact Hin|].
  destruct (proc transaction_id (tables w)) as [m|t' row]; [discriminate|].
  injection Hcall as <- Et.
  destruct row as [message'|]; [|discriminate].
  apply bind_Ok in H as (u3 & w3 & Hlog & H).
  injection H as -> ->.
  apply execute_Ok in Hlog as (Hlog & _). injection Hlog as _ Elog.
  exists (tables w2). split; [rewrite Et; reflexivity|].
  simpl. symmetry. exact Elog.
Qed.

(** What the stored function, as modelled, leaves when it returns. *)
Lemma refund_transaction_sql_return transaction_id t x t' row :
  transactions t !! transaction_id = Some x ->
  refund_transaction_sql transaction_id t = ProcReturn t' row ->
  tx_status x = TxSuccess
  /\ transactions t' !! transaction_id
     = Some (mkTransaction (tx_order x) (amount x) (payment_method x) TxRefunded)
  /\ orders t' !! tx_order x
     = (fun o => mkOrder (order_user o) (total_amount o) Refunded) <$> orders t !! tx_order x
  /\ forall pk,
       stock_quantity <$> products t' !! pk
       = (fun p => stock_quantity p + ordered_quantity pk (items_of (tx_order x) t))
           <$> products t !! pk.
Proof.
  intros Hx. unfold refund_transaction_sql, can_be_refunded. rewrite Hx.
  case_bool_decide as Hs; simpl; [|discriminate].
  intros H. injection H as <- _. simpl.
  split; [exact Hs|]. split; [apply lookup_insert_eq|].
  split; [apply lookup_alter_eq|].
  intros pk. apply foldl_release_stock.
Qed.

(** The refund endpoint on a transaction that can be refunded is the
    service call followed by the re-read of the transaction. *)
Lemma refund_view_refundable proc transaction_id admin w x :
  transactions (tables w) !! transaction_id = Some x ->
  tx_status x = TxSuccess ->
  refund_transaction_view proc transaction_id admin w
  = match PaymentService.refund_transaction proc transaction_id (Some admin) w with
    | (Ok message, w1) =>
        match transactions (tables w1) !! transaction_id with
        | Some _ => (Ok (HTTP_200_OK message), w1)
        | None => (Raise DoesNotExist, w1)
        end
    | (Raise (ValueError msgs), w1) => (Ok (HTTP_400_BAD_REQUEST msgs), w1)
    | (Raise e, w1) => (Raise e, w1)
    end.
Proof.
  intros Hx Hs.
  unfold refund_transaction_view.
  remember (PaymentService.refund_transaction proc transaction_id (Some admin)) as svc.
  unfold try_except, Transaction_get, can_be_refunded, ret, bind.
  rewrite Hx. simpl. rewrite (bool_decide_eq_true_2 _ Hs). simpl.
  destruct (svc w) as [[message|e] w1]; [|destruct e; reflexivity].
  destruct (transactions (tables w1) !! transaction_id); reflexivity.
Qed.

(** C6. With the stored function as the specification describes it,
    a refund through the refund endpoint, asked by an administrator (the
    permission check of the endpoint) for an existing transaction:
    - succeeds exactly when the status of the transaction is Success
      (the stored function being installed, no database fault injected);
    - otherwise answers 400 NotRefundable and changes nothing: the check
      is [Transaction.can_be_refunded] in the endpoint, which does not
      call the service then;
    - a success is answered only when the stored function is installed;
      after it the transaction is Refunded, its order is Refunded, and
      the stock of every product has grown by the quantity on the lines
      of that order for the product;
    - the three writes are one unit: every answer of the endpoint other
      than the success leaves the tables as they were, and so does every
      call of the service that raises. *)
Theorem refund_contract transaction_id admin w x :
  role admin = Some "Admin" ->
  transactions (tables w) !! transaction_id = Some x ->
  let view := refund_transaction_view refund_transaction_sql transaction_id admin in
  let refund :=
    PaymentService.refund_transaction refund_transaction_sql transaction_id (Some admin) in
  ("refund_transaction" ∈ pg_proc w -> faults w = None ->
   ((exists message w', view w = (Ok (HTTP_200_OK message), w'))
    <-> tx_status x = TxSuccess))
  /\ (tx_status x <> TxSuccess ->
      view w = (Ok (HTTP_400_BAD_REQUEST [NotRefundable]), w))
  /\ (forall message w',
        view w = (Ok (HTTP_200_OK message), w') ->
        "refund_transaction" ∈ pg_proc w
        /\ transactions (tables w') !! transaction_id
           = Some (mkTransaction (tx_order x) (amount x) (payment_method x) TxRefunded)
        /\ orders (tables w') !! tx_order x
           = (fun o => mkOrder (order_user o) (total_amount o) Refunded)
               <$> orders (tables w) !! tx_order x
        /\ forall pk,
             stock_quantity <$> products (tables w') !! pk
             = (fun p => stock_quantity p
                         + ordered_quantity pk (items_of (tx_order x) (tables w)))
                 <$> products (tables w) !! pk)
  /\ (forall r w',
        view w = (r, w') ->
        (exists message, r = Ok (HTTP_200_OK message)) \/ tables w' = tables w)
  /\ (forall e w', refund w = (Raise e, w') -> tables w' = tables w).
Proof.
  intros Hr Hx view refund.
  assert (Hguard : tx_status x <> TxSuccess ->
                   view w = (Ok (HTTP_400_BAD_REQUEST [NotRefundable]), w)).
  { intros Hs.
    unfold view, refund_transaction_view, try_except, Transaction_get, can_be_refunded,
      ret, bind.
    rewrite Hx. simpl. rewrite (bool_decide_eq_false_2 _ Hs). reflexivity. }
  assert (Hok : forall message w1,
            refund w = (Ok message, w1) ->
            "refund_transaction" ∈ pg_proc w
            /\ transactions (tables w1) !! transaction_id
            = Some (mkTransaction (tx_order x) (amount x) (payment_method x) TxRefunded)
            /\ orders (tables w1) !! tx_order x
               = (fun o => mkOrder (order_user o) (total_amount o) Refunded)
                   <$> orders (tables w) !! tx_order x
            /\ forall pk,
                 stock_quantity <$> products (tables w1) !! pk
                 = (fun p => stock_quantity p
                             + ordered_quantity pk (items_of (tx_order x) (tables w)))
                     <$> products (tables w) !! pk).
  { intros message w1 H.
    apply refund_transaction_Ok in H as (_ & Hproc & t' & Hsql & ->).
    apply (refund_transaction_sql_return _ _ x) in Hsql as (_ & Htx & Ho & Hp);
      [|exact Hx].
    simpl. auto. }
  split; [|split; [exact Hguard|split; [|split]]].
  - intros Hproc Hf. split.
    + intros (message & w' & H).
      destruct (decide (tx_status x = TxSuccess)) as [|Hs]; [assumption|].
      rewrite (Hguard Hs) in H. discriminate.
    + intros Hs. unfold view. rewrite (refund_view_refundable _ _ _ _ x Hx Hs).
      assert (Hrun : exists w1,
                PaymentService.refund_transaction refund_transaction_sql transaction_id
                  (Some admin) w = (Ok "Transaction refunded", w1)).
      { destruct w as [t os ts pp ss fl]. simpl in *. subst fl.
        unfold PaymentService.refund_transaction, PaymentService.set_user_context,
          set_role_of, atomic, try_except, callproc, Log_create, execute,
          refund_transaction_sql, can_be_refunded, set_current_user_id, set_current_role,
          set_config, raise, ret, bind.
        rewrite Hr. simpl. rewrite (bool_decide_eq_true_2 _ Hproc), Hx.
        rewrite (bool_decide_eq_true_2 _ Hs). simpl. eauto. }
      destruct Hrun as [w1 Hrun]. rewrite Hrun.
      destruct (Hok _ _ Hrun) as (_ & Htx & _). rewrite Htx. eauto.
  - intros message w' H.
    destruct (decide (tx_status x = TxSuccess)) as [Hs|Hs];
      [|rewrite (Hguard Hs) in H; discriminate].
    unfold view in H. rewrite (refund_view_refundable _ _ _ _ x Hx Hs) in H.
    destruct (PaymentService.refund_transaction refund_transaction_sql transaction_id
                (Some admin) w) as [[m|e] w1] eqn:Hrun.
    + destruct (transactions (tables w1) !! transaction_id); [|discriminate].
      injection H as <- <-. exact (Hok _ _ Hrun).
    + destruct e; discriminate.
  - intros r w' H.
    destruct (decide (tx_status x = TxSuccess)) as [Hs|Hs];
      [|rewrite (Hguard Hs) in H; injection H as <- <-; right; reflexivity].
    unfold view in H. rewrite (refund_view_refundable _ _ _ _ x Hx Hs) in H.
    destruct (PaymentService.refund_transaction refund_transaction_sql transaction_id
                (Some admin) w) as [[m|e] w1] eqn:Hrun.
    + destruct (Hok _ _ Hrun) as (_ & Htx & _). rewrite Htx in H.
      injection H as <- <-. left. eauto.
    + right. apply atomic_Raise in Hrun.
      destruct e; injection H as <- <-; exact Hrun.
  - intros e w'. apply atomic_Raise.
Qed.

Lemma refund_contract_witness :
  exists message w',
    refund_transaction_view refund_transaction_sql 1 admin refund_world
    = (Ok (HTTP_200_OK message), w').
Proof.
  refine (proj2 (proj1 (refund_contract 1 admin refund_world
                          (mkTransaction 1 100000 Card TxSuccess) _ _) _ _) _).
  - reflexivity.
  - reflexivity.
  - apply (bool_decide_unpack _). vm_compute. reflexivity.
  - reflexivity.
  - reflexivity.
Defined.

(** The service has no status check of its own. Whatever a stored
    function raises, the handler of the service writes its log row in the
    failed transaction, and what the caller of the service gets is the
    database error of that write. *)
Lemma refund_service_surfaces_database_error proc transaction_id user w raised :
  "refund_transaction" ∈ pg_proc w -> faults w = None -> role_is_set user ->
  proc transaction_id (tables w) = ProcRaise raised ->
  PaymentService.refund_transaction proc transaction_id user w
  = (Raise (DatabaseError None), w).
Proof.
  intros Hproc Hf Hrole Hraise.
  destruct w as [t os ts pp ss fl]. simpl in *. subst fl.
  unfold PaymentService.refund_transaction, PaymentService.set_user_context, set_role_of,
    atomic, try_except, callproc, Log_create, execute, set_current_user_id,
    set_current_role, set_config, raise, ret, bind.
  destruct user as [[uid un [r|]]|]; simpl in *;
    [|destruct Hrole as [r Hr]; discriminate|];
    rewrite (bool_decide_eq_true_2 _ Hproc), Hraise; reflexivity.
Qed.

(** * More properties of the code *)

(** ** Product: reserve then release *)

(** X1. Releasing the quantity that was just reserved gives back the
    stock, the name and the price, and leaves the product marked
    available whatever it was before: the product is exactly restored
    when it was available, and a product that was switched off comes back
    switched on. *)
Theorem release_after_reserve p q p' :
  decrease_stock p q = Ok p' ->
  increase_stock p' q = mkProduct (name p) (price p) (stock_quantity p) true
  /\ (increase_stock p' q = p <-> is_available p = true).
Proof.
  unfold decrease_stock. destruct (stock_quantity p <? q); [discriminate|].
  intros H. injection H as <-.
  assert (E : increase_stock
                (mkProduct (name p) (price p) (stock_quantity p - q)
                   (if stock_quantity p - q =? 0 then false else is_available p)) q
              = mkProduct (name p) (price p) (stock_quantity p) true).
  { unfold increase_stock. simpl.
    replace (stock_quantity p - q + q) with (stock_quantity p) by lia.
    destruct (stock_quantity p - q =? 0), (is_available p); reflexivity. }
  split; [exact E|]. rewrite E. destruct p as [n pr s a]; simpl. split.
  - intros H. injection H as <-. reflexivity.
  - intros ->. reflexivity.
Qed.

Lemma release_after_reserve_witness :
  increase_stock (mkProduct "B" 2550 0 false) 3 = product_B.
Proof.
  refine (proj2 (proj2 (release_after_reserve product_B 3 (mkProduct "B" 2550 0 false) _)) _);
    reflexivity.
Defined.

(** X2. Starting from a product with non-negative stock whose flag is off
    when the stock is 0, no sequence of [decrease_stock] and
    [increase_stock] with positive release quantities ends with stock 0
    and the flag on. The releases have to be positive: [increase_stock]
    by 0 on a sold-out product switches the flag on at stock 0. *)
Theorem stock_flag_coupling_kept (p : Product) (ops : list StockOp) :
  0 <= stock_quantity p ->
  (stock_quantity p = 0 -> is_available p = false) ->
  Forall (fun op => match op with Reserve _ => True | Release r => 0 < r end) ops ->
  (stock_quantity (foldl apply_op p ops) = 0 -> is_available (foldl apply_op p ops) = false)
  /\ (stock_quantity p = 0 ->
      stock_quantity (increase_stock p 0) = 0 /\ is_available (increase_stock p 0) = true).
Proof.
  intros Hs Hc Hops. split.
  - revert p Hs Hc. induction Hops as [|op ops Hop _ IH]; intros p Hs Hc; simpl; [exact Hc|].
    assert (H : 0 <= stock_quantity (apply_op p op)
                /\ (stock_quantity (apply_op p op) = 0 -> is_available (apply_op p op) = false)).
    { destruct op as [q|r]; simpl.
      - destruct (decrease_stock p q) as [p'|e] eqn:E; [|auto].
        split; [apply decrease_stock_Ok in E; lia|].
        apply (decrease_stock_zero_clears_flag _ _ _ E).
      - split; [lia|]. intros H0. lia. }
    destruct H as [H1 H2]. apply IH; assumption.
  - intros H0. unfold increase_stock. simpl. split; [lia|].
    destruct (is_available p); reflexivity.
Qed.

Lemma stock_flag_coupling_kept_witness :
  is_available (foldl apply_op product_B [Reserve 3; Release 2; Reserve 2]) = false.
Proof.
  refine (proj1 (stock_flag_coupling_kept product_B [Reserve 3; Release 2; Reserve 2]
                   _ _ _) _).
  - simpl. lia.
  - simpl. discriminate.
  - repeat constructor; simpl; lia.
  - reflexivity.
Defined.

(** X16. [Product.decrease_stock] succeeds exactly when the stock of the
    instance is at least the quantity asked, and then takes exactly that
    quantity off; otherwise it raises, reporting the stock, and the
    instance is as it was. The stock test of the order loop raises for the
    same lines. With a stock that starts non-negative and increases by
    non-negative quantities, no sequence of [decrease_stock] and
    [increase_stock] makes the stock negative. *)
Theorem decrease_stock_contract (p : Product) (q : Z) (ops : list StockOp) :
  (q <= stock_quantity p <-> exists p', decrease_stock p q = Ok p')
  /\ (forall p', decrease_stock p q = Ok p' -> stock_quantity p' = stock_quantity p - q)
  /\ (stock_quantity p < q ->
      decrease_stock p q = Raise (ValueError [NotEnoughStock (stock_quantity p) q])
      /\ apply_op p (Reserve q) = p)
  /\ (forall order item rest total w,
        stock_quantity p < cart_quantity item ->
        order_lines order ((item, p) :: rest) total w
        = (Raise (ValueError
                    [InsufficientStock (name p) (cart_quantity item) (stock_quantity p)]), w))
  /\ (0 <= stock_quantity p -> Forall release_nonneg ops ->
      0 <= stock_quantity (foldl apply_op p ops)).
Proof.
  repeat split.
  - intros Hq. unfold decrease_stock.
    destruct (stock_quantity p <? q) eqn:E; [apply Z.ltb_lt in E; lia|]. eauto.
  - intros [p' H]. apply decrease_stock_Ok in H. lia.
  - intros p' H. apply decrease_stock_Ok in H. lia.
  - unfold decrease_stock. apply Z.ltb_lt in H. rewrite H. reflexivity.
  - simpl. unfold decrease_stock. apply Z.ltb_lt in H. rewrite H. reflexivity.
  - intros order item rest total w H. simpl. apply Z.ltb_lt in H. rewrite H. reflexivity.
  - revert p. induction ops as [|op ops IH]; intros p Hp Hops; simpl; [exact Hp|].
    inversion Hops; subst. apply IH; [|assumption].
    apply apply_op_nonneg; assumption.
Qed.

Lemma decrease_stock_contract_witness :
  0 <= stock_quantity
         (foldl apply_op product_B [Reserve 2; Reserve 5; Release 4; Reserve 5; Reserve 1]).
Proof.
  apply (decrease_stock_contract product_B 2
           [Reserve 2; Reserve 5; Release 4; Reserve 5; Reserve 1]).
  - simpl. lia.
  - repeat constructor; simpl; lia.
Defined.

(** ** The cart: adding lines *)

Lemma add_to_cart_inr user pid q t item t' :
  add_to_cart user pid q t = inr (item, t') ->
  exists p,
    products t !! pid = Some p /\ is_available p = true /\ q <= stock_quantity p
    /\ ((cart_lines_of (user_id user) pid t = []
         /\ item = mkCartItem (user_id user) pid q
         /\ t' = set_cart_items (item :: cart_items t) t)
        \/ (exists old,
              cart_lines_of (user_id user) pid t = [old]
              /\ item = mkCartItem (user_id user) pid (cart_quantity old + q)
              /\ cart_quantity old + q <= stock_quantity p
              /\ t' = set_cart_items
                        (map (fun i =>
                                if bool_decide (cart_user i = user_id user
                                                /\ cart_product i = pid)
                                then item else i)
                             (cart_items t)) t)).
Proof.
  unfold add_to_cart, ProductService.check_availability.
  destruct (products t !! pid) as [p|] eqn:Hp; [|discriminate].
  destruct (is_available p) eqn:Ha; [|discriminate].
  destruct (Z.leb_spec q (stock_quantity p)) as [Hq|Hq]; [|discriminate].
  destruct (cart_lines_of (user_id user) pid t) as [|old [|]] eqn:Hl; [| |discriminate].
  - intros H. injection H as <- <-. exists p. repeat split; auto.
  - destruct (Z.ltb_spec (stock_quantity p) (cart_quantity old + q)) as [Hlt|Hge];
      [discriminate|].
    intros H. injection H as <- <-. exists p. repeat split; auto.
    right. exists old. repeat split; auto.
Qed.

Lemma cart_lines_of_nil uid pid t :
  cart_lines_of uid pid t = [] ->
  (uid, pid) ∉ map (fun i => (cart_user i, cart_product i)) (cart_items t).
Proof.
  unfold cart_lines_of. intros Hnil Hin.
  apply list_elem_of_In, in_map_iff in Hin as (i & Hk & Hi).
  injection Hk as Hu Hp.
  refine (filter_nil_not_elem_of
            (fun i => cart_user i = uid /\ cart_product i = pid) _ i Hnil _ _); auto.
  apply list_elem_of_In. exact Hi.
Qed.

(** X3. [add_to_cart] keeps the cart table free of duplicates: when no
    two lines have the same user and product before the call, none have
    after a successful call. *)
Theorem add_to_cart_keeps_unique user pid q t item t' :
  cart_unique t ->
  add_to_cart user pid q t = inr (item, t') ->
  cart_unique t'.
Proof.
  unfold cart_unique. intros Hu H.
  apply add_to_cart_inr in H as (p & _ & _ & _ & [(Hnil & -> & ->)|(old & Hl & -> & _ & ->)]).
  - simpl. apply NoDup_cons. split; [|exact Hu].
    apply cart_lines_of_nil. exact Hnil.
  - simpl. rewrite map_map.
    erewrite map_ext; [exact Hu|].
    intros i. simpl. case_bool_decide as Hd; [|reflexivity].
    destruct Hd as [-> ->]. reflexivity.
Qed.

Lemma add_to_cart_keeps_unique_witness :
  cart_unique (match add_to_cart buyer 1 3 shop with
               | inr (_, t') => t'
               | inl _ => shop
               end).
Proof.
  refine (add_to_cart_keeps_unique buyer 1 3 shop (mkCartItem 7 1 5) _ _ _).
  - unfold cart_unique. apply (bool_decide_unpack _). vm_compute. reflexivity.
  - vm_compute. reflexivity.
Defined.

Lemma omap_none {A B} (f : A -> option B) (l : list A) :
  (forall x, x ∈ l -> f x = None) -> omap f l = [].
Proof.
  induction l as [|a l IH]; intros H; [reflexivity|]. simpl.
  rewrite (H a) by left. apply IH. intros x Hx. apply H. right. exact Hx.
Qed.

Lemma fresh_line_passes (item : CartItem) (p : Product) :
  is_available p = true -> cart_quantity item <= stock_quantity p ->
  CartService.line_error (item, p) = None.
Proof.
  intros Ha Hq. simpl. rewrite Ha. simpl.
  destruct (Z.ltb_spec (stock_quantity p) (cart_quantity item)); [lia|reflexivity].
Qed.

(** X4. [add_to_cart] never builds a cart that [validate_cart] rejects:
    when every line of the user's cart passes the checks of
    [validate_cart] (or the cart is empty), then after a successful
    [add_to_cart] the cart of the user is valid. *)
Theorem add_to_cart_keeps_cart_valid user pid q t item t' :
  (forall line, line ∈ CartService.get_cart user t -> CartService.line_error line = None) ->
  add_to_cart user pid q t = inr (item, t') ->
  CartService.validate_cart user t' = (true, []).
Proof.
  intros Hok H.
  apply add_to_cart_inr in H as (p & Hp & Ha & Hq & Hcase).
  assert (Hitem : cart_user item = user_id user /\ cart_product item = pid
                  /\ cart_quantity item <= stock_quantity p).
  { destruct Hcase as [(_ & -> & _)|(old & _ & -> & Hle & _)]; simpl; auto. }
  destruct Hitem as (Hiu & Hip & Hiq).
  assert (Hprod : products t' = products t).
  { destruct Hcase as [(_ & _ & ->)|(old & _ & _ & _ & ->)]; reflexivity. }
  assert (Hin : item ∈ cart_items t').
  { destruct Hcase as [(_ & _ & ->)|(old & Hl & _ & _ & ->)]; simpl; [left|].
    assert (Hold : old ∈ cart_lines_of (user_id user) pid t) by (rewrite Hl; left).
    apply list_elem_of_filter in Hold as [Hkey Hold].
    apply list_elem_of_In, in_map_iff. exists old. split; [|apply list_elem_of_In, Hold].
    rewrite bool_decide_eq_true_2 by exact Hkey. reflexivity. }
  assert (Hlines : forall line, line ∈ CartService.get_cart user t' ->
                                CartService.line_error line = None).
  { intros line Hline. unfold CartService.get_cart in Hline.
    apply list_elem_of_omap in Hline as (i & Hi & Hg). rewrite Hprod in Hg.
    case_bool_decide as Hu; [|discriminate].
    destruct (products t !! cart_product i) as [pi|] eqn:Hpi; [|discriminate].
    simpl in Hg. injection Hg as <-.
    assert (Hi' : i = item \/ i ∈ cart_items t).
    { destruct Hcase as [(_ & _ & ->)|(old & _ & _ & _ & ->)]; simpl in Hi.
      - apply list_elem_of_In in Hi. destruct Hi as [<-|Hi]; [left; reflexivity|].
        right. apply list_elem_of_In. exact Hi.
      - apply list_elem_of_In, in_map_iff in Hi as (j & Hj & Hjin).
        case_bool_decide; [left; congruence|]. right. subst j.
        apply list_elem_of_In. exact Hjin. }
    destruct Hi' as [->|Hi'].
    - rewrite Hip, Hp in Hpi. injection Hpi as <-. apply fresh_line_passes; assumption.
    - apply Hok. unfold CartService.get_cart. apply list_elem_of_omap. exists i.
      split; [exact Hi'|]. rewrite bool_decide_eq_true_2 by exact Hu.
      rewrite Hpi. reflexivity. }
  unfold CartService.validate_cart.
  assert (Hex : CartService.exists_ user t' = true).
  { unfold CartService.exists_. apply bool_decide_eq_true. intros Hnil.
    exact (filter_nil_not_elem_of (fun i => cart_user i = user_id user) _ item Hnil Hiu Hin). }
  rewrite Hex. simpl. rewrite (omap_none _ _ Hlines). reflexivity.
Qed.

Lemma add_to_cart_keeps_cart_valid_witness :
  CartService.validate_cart buyer
    (match add_to_cart buyer 3 2 shop with inr (_, t') => t' | inl _ => shop end)
  = (true, []).
Proof.
  refine (add_to_cart_keeps_cart_valid buyer 3 2 shop (mkCartItem 7 3 2) _ _ _).
  - intros line Hline.
    change (CartService.get_cart buyer shop)
      with [(mkCartItem 7 2 3, product_B); (mkCartItem 7 1 2, product_A)] in Hline.
    apply list_elem_of_In in Hline. destruct Hline as [<-|[<-|[]]]; reflexivity.
  - vm_compute. reflexivity.
Defined.

Lemma map_same {A} (f : A -> A) (l : list A) :
  (forall x, x ∈ l -> f x = x) -> map f l = l.
Proof.
  induction l as [|a l IH]; intros H; [reflexivity|]. simpl.
  rewrite (H a) by left. f_equal. apply IH. intros x Hx. apply H. right. exact Hx.
Qed.

Lemma filter_replaced {A} (P : A -> Prop) `{forall x, Decision (P x)} (y : A) (l : list A) :
  P y ->
  filter P (map (fun x => if bool_decide (P x) then y else x) l)
  = map (fun _ => y) (filter P l).
Proof.
  intros Hy. induction l as [|a l IH]; [reflexivity|]. simpl.
  case_bool_decide as Ha.
  - rewrite filter_cons_True by exact Hy. rewrite (filter_cons_True P a) by exact Ha.
    simpl. f_equal. exact IH.
  - rewrite !filter_cons_False by exact Ha. exact IH.
Qed.

(** X5. Adding a product in two steps is adding it in one: when two
    successive [add_to_cart] calls for the same user and product succeed,
    a single call with the sum of the two quantities succeeds from the
    same start and leaves the same line and the same tables (the lines
    already in the cart having non-negative quantities). *)
Theorem add_to_cart_accumulates user pid q1 q2 t i1 t1 i2 t2 :
  (forall item, item ∈ cart_items t -> 0 <= cart_quantity item) ->
  add_to_cart user pid q1 t = inr (i1, t1) ->
  add_to_cart user pid q2 t1 = inr (i2, t2) ->
  add_to_cart user pid (q1 + q2) t = inr (i2, t2).
Proof.
  intros Hnn H1 H2.
  apply add_to_cart_inr in H1 as (p & Hp & Ha & Hq1 & Hcase1).
  apply add_to_cart_inr in H2 as (p2 & Hp2 & _ & Hq2 & Hcase2).
  assert (Hprod : products t1 = products t).
  { destruct Hcase1 as [(_ & _ & ->)|(old & _ & _ & _ & ->)]; reflexivity. }
  rewrite Hprod, Hp in Hp2. injection Hp2 as <-.
  unfold add_to_cart, ProductService.check_availability. rewrite Hp, Ha.
  destruct Hcase1 as [(Hnil & -> & ->)|(old & Hl & -> & Hle & ->)].
  - (* the first call created the line *)
    assert (Hl1 : cart_lines_of (user_id user) pid
                    (set_cart_items (mkCartItem (user_id user) pid q1 :: cart_items t) t)
                  = [mkCartItem (user_id user) pid q1]).
    { unfold cart_lines_of in *. simpl. rewrite filter_cons_True by (simpl; auto).
      rewrite Hnil. reflexivity. }
    destruct Hcase2 as [(Hnil2 & _)|(old2 & Hl2 & -> & Hle2 & ->)];
      [rewrite Hl1 in Hnil2; discriminate|].
    rewrite Hl1 in Hl2. injection Hl2 as <-. simpl in *.
    destruct (Z.leb_spec (q1 + q2) (stock_quantity p)) as [_|]; [|lia].
    rewrite Hnil. simpl.
    rewrite bool_decide_eq_true_2 by auto.
    rewrite map_same; [reflexivity|].
    intros x Hx. case_bool_decide as Hk; [|reflexivity]. exfalso.
    unfold cart_lines_of in Hnil.
    exact (filter_nil_not_elem_of
             (fun i => cart_user i = user_id user /\ cart_product i = pid) _ x Hnil Hk Hx).
  - (* the first call saved a line that was there *)
    assert (Hold : old ∈ cart_items t /\ 0 <= cart_quantity old).
    { assert (Ho : old ∈ cart_lines_of (user_id user) pid t) by (rewrite Hl; left).
      apply list_elem_of_filter in Ho as [_ Ho]. auto. }
    destruct Hold as [_ Hq0].
    set (item1 := mkCartItem (user_id user) pid (cart_quantity old + q1)) in *.
    assert (Hl1 : cart_lines_of (user_id user) pid
                    (set_cart_items
                       (map (fun i => if bool_decide (cart_user i = user_id user
                                                      /\ cart_product i = pid)
                                      then item1 else i) (cart_items t)) t)
                  = [item1]).
    { unfold cart_lines_of in *. simpl.
      rewrite (filter_replaced
                 (fun i => cart_user i = user_id user /\ cart_product i = pid) item1)
        by (simpl; auto).
      rewrite Hl. reflexivity. }
    destruct Hcase2 as [(Hnil2 & _)|(old2 & Hl2 & -> & Hle2 & ->)];
      [rewrite Hl1 in Hnil2; discriminate|].
    rewrite Hl1 in Hl2. injection Hl2 as <-. simpl in *.
    destruct (Z.leb_spec (q1 + q2) (stock_quantity p)) as [_|]; [|lia].
    rewrite Hl.
    destruct (Z.ltb_spec (stock_quantity p) (cart_quantity old + (q1 + q2))) as [|_]; [lia|].
    rewrite Z.add_assoc. f_equal. f_equal. unfold set_cart_items. simpl. f_equal.
    rewrite map_map. apply map_ext. intros i.
    case_bool_decide as Hk; [|rewrite bool_decide_eq_false_2 by exact Hk; reflexivity].
    rewrite bool_decide_eq_true_2 by (simpl; auto). reflexivity.
Qed.

Lemma add_to_cart_accumulates_witness :
  add_to_cart buyer 1 (1 + 2) shop
  = inr (mkCartItem 7 1 5,
         set_cart_items [mkCartItem 7 2 3; mkCartItem 8 1 1; mkCartItem 7 1 5] shop).
Proof.
  refine (add_to_cart_accumulates buyer 1 1 2 shop (mkCartItem 7 1 3)
            (set_cart_items [mkCartItem 7 2 3; mkCartItem 8 1 1; mkCartItem 7 1 3] shop)
            _ _ _ _ _).
  - intros item Hitem. apply list_elem_of_In in Hitem.
    destruct Hitem as [<-|[<-|[<-|[]]]]; simpl; lia.
  - vm_compute. reflexivity.
  - vm_compute. reflexivity.
Defined.

(** ** The cart and the order made from it *)

Lemma foldl_add_from {A} (f : A -> Z) (l : list A) : forall a,
  foldl (fun acc x => acc + f x) a l = a + foldr (fun x acc => f x + acc) 0 l.
Proof.
  induction l as [|x l IH]; intros a; simpl; [lia|]. rewrite IH. lia.
Qed.

Lemma created_items (t t' : Tables) order (c : list (CartItem * Product)) :
  (forall it, it ∈ order_items t -> is_Some (orders t !! item_order it)) ->
  orders t !! order = None ->
  order_items t' = order_items t ++ map (snapshot_line order) c ->
  items_of order t' = map (snapshot_line order) c.
Proof.
  intros Hfk Hfresh Hi. unfold items_of. rewrite Hi, filter_app.
  rewrite (filter_none (fun it => item_order it = order)).
  - simpl. apply filter_all. intros x Hx.
    apply list_elem_of_In, in_map_iff in Hx as (l & <- & _). reflexivity.
  - intros it Hit Heq. destruct (Hfk it Hit) as [o Hsome].
    rewrite Heq, Hfresh in Hsome. discriminate.
Qed.

(** X6. The total the cart shows is the total of the order made from it.
    After a successful [create_order_from_cart] (no stored function,
    order lines referring to existing orders) the returned total equals
    [get_cart_total]'s [total_price] computed before the call, it equals
    the sum of [OrderItem.get_total_price] over the lines of the new
    order, and the quantities on those lines add up to [total_items]. *)
Theorem cart_total_is_order_total proc user w order total w' :
  "create_order_from_cart" ∉ pg_proc w ->
  (forall it, it ∈ order_items (tables w) -> is_Some (orders (tables w) !! item_order it)) ->
  OrderService.create_order_from_cart proc user w = (Ok (order, total), w') ->
  total = (get_cart_total user (tables w)).2
  /\ foldl (fun acc it => acc + OrderItem_get_total_price it) 0 (items_of order (tables w'))
     = total
  /\ foldl (fun acc it => acc + item_quantity it) 0 (items_of order (tables w'))
     = (get_cart_total user (tables w)).1.
Proof.
  intros Hproc Hfk H.
  apply create_order_fallback_Ok in H as (w1 & w2 & Ht & H & Hw'); [|exact Hproc].
  apply order_from_snapshot_Ok in H as (Hfresh & Htot & _ & _ & _ & Hi & _).
  rewrite Ht in Hfresh, Hi.
  assert (Hitems : items_of order (tables w')
                   = map (snapshot_line order) (CartService.get_cart user (tables w))).
  { apply (created_items (tables w)); [exact Hfk|exact Hfresh|].
    rewrite Hw'. exact Hi. }
  rewrite Hitems, Htot. unfold get_cart_total. simpl.
  rewrite !foldl_add_from. simpl.
  generalize (CartService.get_cart user (tables w)). intros cart.
  repeat split; induction cart as [|[item product] cart IH]; simpl in *;
    unfold OrderItem_get_total_price, CartItem_get_total_price in *; simpl; lia.
Qed.

Lemma cart_total_is_order_total_witness :
  foldl (fun acc it => acc + OrderItem_get_total_price it) 0
    (items_of 1 (tables (OrderService.create_order_from_cart (fun _ => no_proc) buyer
                           (world_of shop)).2))
  = 207650.
Proof.
  refine (proj1 (proj2 (cart_total_is_order_total (fun _ => no_proc) buyer (world_of shop)
                          1 207650 _ _ _ _))).
  - vm_compute. intros H. inversion H.
  - intros it H. inversion H.
  - vm_compute. reflexivity.
Defined.

Lemma foldl_reserve_other (cart : list (CartItem * Product)) : forall ps pk,
  (forall line, line ∈ cart -> cart_product line.1 <> pk) ->
  foldl reserve_line ps cart !! pk = ps !! pk.
Proof.
  induction cart as [|line cart IH]; intros ps pk Hno; [reflexivity|]. simpl.
  rewrite IH by (intros l Hl; apply Hno; right; exact Hl).
  unfold reserve_line. apply lookup_alter_ne. apply Hno. left.
Qed.

Lemma foldl_reserve_line_in (cart : list (CartItem * Product)) : forall ps item product p0,
  NoDup (map (fun line => cart_product line.1) cart) ->
  (item, product) ∈ cart ->
  ps !! cart_product item = Some p0 ->
  foldl reserve_line ps cart !! cart_product item
  = Some (mkProduct (name p0) (price p0)
            (stock_quantity product - cart_quantity item) (is_available p0)).
Proof.
  induction cart as [|line cart IH]; intros ps item product p0 Hnd Hin Hp; [inversion Hin|].
  simpl in *. apply NoDup_cons in Hnd as [Hnotin Hnd].
  apply list_elem_of_In in Hin. destruct Hin as [->|Hin].
  - rewrite foldl_reserve_other.
    + unfold reserve_line. simpl. rewrite lookup_alter_eq, Hp. reflexivity.
    + intros l Hl Heq. apply Hnotin. simpl. rewrite <- Heq.
      apply list_elem_of_In, in_map_iff. exists l. split; [reflexivity|].
      apply list_elem_of_In. exact Hl.
  - apply list_elem_of_In in Hin. apply IH; [exact Hnd|exact Hin|].
    unfold reserve_line. rewrite lookup_alter_ne; [exact Hp|].
    intros Heq. apply Hnotin. rewrite Heq.
    apply list_elem_of_In, in_map_iff. exists (item, product). split; [reflexivity|].
    apply list_elem_of_In. exact Hin.
Qed.

Lemma get_cart_products_NoDup user t :
  cart_unique t ->
  NoDup (map (fun line : CartItem * Product => cart_product line.1)
           (CartService.get_cart user t)).
Proof.
  unfold cart_unique, CartService.get_cart.
  induction (cart_items t) as [|i l IH]; intros Hu; simpl; [constructor|].
  apply NoDup_cons in Hu as [Hnotin Hu].
  case_bool_decide as Hd; [|apply IH, Hu].
  destruct (products t !! cart_product i) as [p|]; simpl; [|apply IH, Hu].
  apply NoDup_cons. split; [|apply IH, Hu].
  intros Hin. apply Hnotin.
  apply list_elem_of_In, in_map_iff in Hin as ([j pj] & Hj & Hjin). simpl in Hj.
  apply list_elem_of_In, list_elem_of_omap in Hjin as (k & Hk & Hg).
  case_bool_decide as Hku; [|discriminate].
  destruct (products t !! cart_product k); [|discriminate]. simpl in Hg.
  injection Hg as -> _.
  apply list_elem_of_In, in_map_iff. exists j. split; [|apply list_elem_of_In, Hk].
  congruence.
Qed.

(** X7. A successful [create_order_from_cart] (no stored function, a cart
    table without duplicate lines) takes from every product in the
    buyer's cart exactly the quantity of its line, keeping the name, the
    price and the availability flag of the row, and leaves every product
    that is not in the buyer's cart as it was. *)
Theorem order_takes_ordered_stock proc user w order total w' :
  "create_order_from_cart" ∉ pg_proc w ->
  cart_unique (tables w) ->
  OrderService.create_order_from_cart proc user w = (Ok (order, total), w') ->
  (forall item product,
     (item, product) ∈ CartService.get_cart user (tables w) ->
     products (tables w') !! cart_product item
     = Some (mkProduct (name product) (price product)
               (stock_quantity product - cart_quantity item) (is_available product)))
  /\ (forall pk,
        (forall item, item ∈ cart_items (tables w) ->
                      cart_user item = user_id user -> cart_product item <> pk) ->
        products (tables w') !! pk = products (tables w) !! pk).
Proof.
  intros Hproc Hu H.
  apply create_order_fallback_Ok in H as (w1 & w2 & Ht & H & Hw'); [|exact Hproc].
  apply order_from_snapshot_Ok in H as (_ & _ & Hp & _).
  rewrite Ht in Hp. rewrite Hw'. simpl. rewrite Hp. split.
  - intros item product Hin.
    apply foldl_reserve_line_in; [apply get_cart_products_NoDup, Hu|exact Hin|].
    apply get_cart_elem in Hin as (_ & _ & Hprod). exact Hprod.
  - intros pk Hno. apply foldl_reserve_other. intros [item product] Hin. simpl.
    apply get_cart_elem in Hin as (Hin & Huser & _). apply Hno; assumption.
Qed.

Lemma order_takes_ordered_stock_witness :
  products (tables (OrderService.create_order_from_cart (fun _ => no_proc) buyer
                      (world_of shop)).2) !! 1
  = Some (mkProduct "A" 100000 8 true).
Proof.
  refine (proj1 (order_takes_ordered_stock (fun _ => no_proc) buyer (world_of shop)
                   1 207650 _ _ _ _) (mkCartItem 7 1 2) product_A _).
  - vm_compute. intros H. inversion H.
  - unfold cart_unique. apply (bool_decide_unpack _). vm_compute. reflexivity.
  - vm_compute. reflexivity.
  - vm_compute. right. left.
Defined.

(** ** Order creation: when it succeeds *)







(** ** Payments: a missing order, and what a payment writes *)

(** X9. Paying an order that does not exist, without a user or as a user
    whose role is set, raises the [ValueError] 'Order ... not found' and
    changes nothing: the world after the call is the world before it. *)
Theorem create_payment_order_not_found proc order_id amount payment_method user w :
  role_is_set user ->
  orders (tables w) !! order_id = None ->
  PaymentService.create_payment proc order_id amount payment_method user w
  = (Raise (ValueError [OrderNotFound order_id]), w).
Proof.
  intros Hrole Ho. destruct w as [t os ts pp ss fl]. simpl in Ho.
  unfold PaymentService.create_payment, PaymentService.validate_amount,
    PaymentService.set_user_context, set_role_of, atomic, try_except, Order_get,
    set_current_user_id, set_current_role, set_config, raise, ret, bind.
  destruct user as [[uid un [r|]]|]; simpl in *;
    [|destruct Hrole as [r Hr]; discriminate|];
    rewrite Ho; reflexivity.
Qed.

Lemma create_payment_order_not_found_witness :
  PaymentService.create_payment (fun _ _ _ => no_proc) 5 (of_hundredths 100000) Card
    (Some buyer) pending_world
  = (Raise (ValueError [OrderNotFound 5]), pending_world).
Proof.
  apply (create_payment_order_not_found (fun _ _ _ => no_proc) 5 (of_hundredths 100000)
           Card (Some buyer) pending_world).
  - exists "Buyer". reflexivity.
  - reflexivity.
Defined.

Lemma validate_amount_Ok order_id amount user w a w' :
  PaymentService.validate_amount order_id amount user w = (Ok a, w') ->
  w' = w
  /\ exists o, orders (tables w) !! order_id = Some o
               /\ float amount = float (of_hundredths (total_amount o)).
Proof.
  unfold PaymentService.validate_amount, try_except, Order_get, bind.
  destruct (orders (tables w) !! order_id) as [o|] eqn:Ho; [|discriminate].
  case_bool_decide as Hne.
  - unfold Log_create, raise.
    destruct (execute _ w) as [[u|e] w1]; [discriminate|].
    destruct e; discriminate.
  - unfold ret. intros H. injection H as _ <-. split; [reflexivity|].
    exists o. split; [reflexivity|].
    destruct (decide (float amount = float (of_hundredths (total_amount o)))); tauto.
Qed.

(** X10. On the fallback path (no stored function [create_payment]) a
    payment is all or nothing. A call that raises, a database fault
    between its two writes included, leaves every table as it was. A call
    that returns has written exactly one new transaction, with the id
    taken from the sequence, for this order, with status Success and the
    amount rounded to hundredths; the order is Completed with its owner
    and total unchanged; and nothing else is touched, neither another
    order, nor a product, a cart line or an order line. After it the order
    can be refunded, cannot be paid and is not active. *)
Theorem create_payment_writes proc order_id amount payment_method user w :
  "create_payment" ∉ pg_proc w ->
  (forall e w',
     PaymentService.create_payment proc order_id amount payment_method user w
     = (Raise e, w') ->
     tables w' = tables w)
  /\ (forall r w',
        PaymentService.create_payment proc order_id amount payment_method user w
        = (Ok r, w') ->
        exists o h paid,
          r = (Some (transactions_id_seq w), TxSuccess)
          /\ orders (tables w) !! order_id = Some o
          /\ numeric_14_2 amount = Some h
          /\ transactions (tables w) !! transactions_id_seq w = None
          /\ transactions (tables w')
             = <[transactions_id_seq w
                 := mkTransaction order_id h payment_method TxSuccess]>
                 (transactions (tables w))
          /\ paid = mkOrder (order_user o) (total_amount o) Completed
          /\ orders (tables w') = <[order_id := paid]> (orders (tables w))
          /\ products (tables w') = products (tables w)
          /\ cart_items (tables w') = cart_items (tables w)
          /\ order_items (tables w') = order_items (tables w)
          /\ Order_can_be_refunded paid = true /\ can_be_paid paid = false
          /\ is_active paid = false).
Proof.
  intros Hproc. split; [intros e w'; apply atomic_Raise|].
  intros r w' H. apply atomic_Ok in H as (wz & H & ->).
  apply bind_Ok in H as (u1 & wa & Hctx & H).
  apply set_user_context_Ok in Hctx as (_ & Hta & Hpa & _ & Hsa).
  apply bind_Ok in H as (u2 & wb & Hval & H).
  apply validate_amount_Ok in Hval as (-> & o & Ho & _).
  apply bind_Ok in H as (present & wc & Hpe & H).
  unfold _procedure_exists in Hpe. injection Hpe as <- <-.
  rewrite Hpa in H. rewrite bool_decide_eq_false_2 in H by exact Hproc. simpl in H.
  apply bind_Ok in H as (o1 & wd & Hget & H).
  unfold Order_get in Hget. rewrite Ho in Hget. injection Hget as _ <-.
  apply bind_Ok in H as (tx & we & Hcreate & H).
  apply bind_Ok in H as (u3 & wf & Hsave & H).
  apply bind_Ok in H as (u4 & wg & Hlog & H).
  injection H as <- <-.
  destruct (numeric_14_2 amount) as [h|] eqn:Hnum.
  2:{ apply execute_Ok in Hcreate as [Hc _]. discriminate. }
  unfold Transaction_create in Hcreate. apply execute_Ok in Hcreate as (Hc & _).
  simpl in Hc. destruct (negb (decimal_fits 14 h)); [discriminate|].
  rewrite Ho in Hc.
  destruct (transactions (tables wa) !! transactions_id_seq wa) eqn:Hfresh; [discriminate|].
  injection Hc as Etx Ec.
  apply execute_Ok in Hsave as (Hs & _). rewrite <- Ec in Hs. simpl in Hs.
  rewrite Ho in Hs. simpl in Hs.
  destruct (negb (decimal_fits 14 (total_amount o))); [discriminate|].
  injection Hs as _ Es.
  apply execute_Ok in Hlog as (Hl & _). injection Hl as _ El.
  exists o, h, (mkOrder (order_user o) (total_amount o) Completed).
  simpl. rewrite <- El. simpl. rewrite <- Es. simpl.
  rewrite <- Hta, <- Hsa, <- Etx.
  repeat split; try reflexivity; try assumption.
Qed.

Lemma create_payment_writes_witness :
  let w := set_faults (Some 1%nat) pending_world in
  let run := PaymentService.create_payment (fun _ _ _ => no_proc) 1 (of_hundredths 100000)
               Card (Some buyer) w in
  run.1 = Raise (DatabaseError None) /\ tables run.2 = tables w.
Proof.
  intros w run. split; [vm_compute; reflexivity|].
  refine (proj1 (create_payment_writes (fun _ _ _ => no_proc) 1 (of_hundredths 100000)
                   Card (Some buyer) w _) (DatabaseError None) run.2 _).
  - vm_compute. intros H. inversion H.
  - vm_compute. reflexivity.
Defined.

(** ** Who gets to see an order *)

(** X11. [get_order_by_id] hands an order to a user with a role exactly
    when the order exists and the user is an Admin or the owner of the
    order; for everybody else, and for a missing order, the answer is
    [None]. Called without a user it returns whatever order has the id,
    and a user without a role makes it raise. *)
Theorem get_order_by_id_access order_id u role_name t o :
  role u = Some role_name ->
  (get_order_by_id order_id (Some u) t = inr (Some o)
   <-> orders t !! order_id = Some o
       /\ (role_name = "Admin" \/ order_user o = user_id u))
  /\ (exists answer, get_order_by_id order_id (Some u) t = inr answer)
  /\ get_order_by_id order_id None t = inr (orders t !! order_id)
  /\ get_order_by_id order_id (Some (mkUser (user_id u) (username u) None)) t
     = inl AttributeError.
Proof.
  intros Hr. unfold get_order_by_id. simpl. rewrite Hr.
  split; [|split; [|split; reflexivity]].
  - destruct (String.eqb_spec role_name "Admin") as [->|Hna].
    + split.
      * intros E. injection E as E. split; [exact E|left; reflexivity].
      * intros [E _]. rewrite E. reflexivity.
    + destruct (orders t !! order_id) as [o'|]; [|split; [discriminate|intros [E _]; discriminate]].
      case_bool_decide as Hown; split.
      * intros E. injection E as <-. split; [reflexivity|right; exact Hown].
      * intros [E _]. injection E as <-. reflexivity.
      * discriminate.
      * intros [E [Ha|Ho]]; [contradiction|]. injection E as <-. contradiction.
  - destruct (String.eqb role_name "Admin"); eauto.
Qed.

Lemma get_order_by_id_access_witness :
  get_order_by_id 1 (Some buyer) pending_shop = inr (Some (mkOrder 7 100000 Pending)).
Proof.
  refine (proj2 (proj1 (get_order_by_id_access 1 buyer "Buyer" pending_shop
                          (mkOrder 7 100000 Pending) _)) _).
  - reflexivity.
  - split; [reflexivity|right; reflexivity].
Defined.

(** ** The payment amount the serializer lets through *)

(** X12. [validate_payment_amount] accepts exactly the amounts above 0 and
    up to 10 000 000.00 (its earlier test against 999 999 999 999.99 never
    decides the outcome). For every accepted amount and every stored total
    of fewer than 15 digits, the float comparison of [create_payment] is
    equality of the two amounts. *)
Theorem accepted_amount_is_compared_exactly (h total : Z) :
  (validate_payment_amount h = None <-> 0 < h <= 1000000000)
  /\ (validate_payment_amount h = None -> Z.abs total < 10 ^ 14 ->
      (float (of_hundredths h) = float (of_hundredths total) <-> h = total)).
Proof.
  assert (Hiff : validate_payment_amount h = None <-> 0 < h <= 1000000000).
  { unfold validate_payment_amount.
    destruct (Z.leb_spec h 0); [split; [discriminate|lia]|].
    destruct (Z.ltb_spec 99999999999999 h); [split; [discriminate|lia]|].
    destruct (Z.ltb_spec 1000000000 h); [split; [discriminate|lia]|].
    split; [lia|reflexivity]. }
  split; [exact Hiff|].
  intros Hv Ht. apply Hiff in Hv. split.
  - apply float_of_hundredths_inj; [|exact Ht].
    change (10 ^ 14) with 100000000000000. lia.
  - intros ->. reflexivity.
Qed.

Lemma accepted_amount_is_compared_exactly_witness :
  float (of_hundredths 99999) = float (of_hundredths 100000) <-> 99999 = 100000.
Proof.
  refine (proj2 (accepted_amount_is_compared_exactly 99999 100000) _ _); reflexivity.
Defined.

(** ** Card numbers *)

Lemma list_ascii_of_append (a b : string) :
  String.list_ascii_of_string (String.append a b)
  = String.list_ascii_of_string a ++ String.list_ascii_of_string b.
Proof. induction a as [|c a IH]; simpl; [reflexivity|]. rewrite IH. reflexivity. Qed.

Lemma cleaned_of_list (l : list ascii) :
  cleaned (String.string_of_list_ascii l) = filter (fun c => is_digit c = true) l.
Proof. unfold cleaned. rewrite String.list_ascii_of_string_of_list_ascii. reflexivity. Qed.

Lemma stars_no_digit n : filter (fun c => is_digit c = true) (stars n) = [].
Proof.
  induction n as [|n IH]; [reflexivity|]. unfold stars in *. simpl.
  rewrite filter_cons_False by (vm_compute; discriminate). exact IH.
Qed.

Lemma last_four_all_digits (card_number : string) :
  filter (fun c => is_digit c = true) (last_four_of (cleaned card_number))
  = last_four_of (cleaned card_number).
Proof.
  apply filter_all. intros x Hx. unfold last_four_of in Hx.
  apply subseteq_drop in Hx. unfold cleaned in Hx.
  apply list_elem_of_filter in Hx as [Hd _]. exact Hd.
Qed.

(** X13. The only digits in the output of [mask_card_number] are the last
    four digits of the card number, the same four that
    [get_last_four_digits] returns; a number with fewer than four digits
    is masked without any digit left. *)
Theorem mask_shows_last_four_only (card_number : string) :
  ((4 <= length (cleaned card_number))%nat ->
   cleaned (mask_card_number card_number)
   = String.list_ascii_of_string (get_last_four_digits card_number)
   /\ length (cleaned (mask_card_number card_number)) = 4%nat)
  /\ ((length (cleaned card_number) < 4)%nat ->
      cleaned (mask_card_number card_number) = []).
Proof.
  unfold mask_card_number, get_last_four_digits.
  case_bool_decide as Hempty.
  { subst card_number. split; [simpl; lia|reflexivity]. }
  split.
  - intros H4.
    destruct (Nat.ltb_spec (length (cleaned card_number)) 4) as [|_]; [lia|].
    destruct (Nat.leb_spec 4 (length (cleaned card_number))) as [_|]; [|lia].
    rewrite String.list_ascii_of_string_of_list_ascii.
    assert (E : cleaned
                  (if (length (cleaned card_number) =? 16)%nat
                   then String.append "**** **** **** "
                          (String.string_of_list_ascii (last_four_of (cleaned card_number)))
                   else if (length (cleaned card_number) =? 15)%nat
                        then String.append "**** ****** *"
                               (String.string_of_list_ascii
                                  (last_four_of (cleaned card_number)))
                        else String.string_of_list_ascii
                               (stars (length (cleaned card_number) - 4)
                                ++ last_four_of (cleaned card_number)))
                = last_four_of (cleaned card_number)).
    { destruct (_ =? 16)%nat; [|destruct (_ =? 15)%nat].
      - unfold cleaned at 1. rewrite list_ascii_of_append, filter_app.
        rewrite String.list_ascii_of_string_of_list_ascii, last_four_all_digits.
        reflexivity.
      - unfold cleaned at 1. rewrite list_ascii_of_append, filter_app.
        rewrite String.list_ascii_of_string_of_list_ascii, last_four_all_digits.
        reflexivity.
      - rewrite cleaned_of_list, filter_app, stars_no_digit, last_four_all_digits.
        reflexivity. }
    rewrite E. split; [reflexivity|].
    unfold last_four_of. rewrite length_drop. lia.
  - intros H4.
    destruct (Nat.ltb_spec (length (cleaned card_number)) 4) as [_|]; [|lia].
    rewrite cleaned_of_list. apply stars_no_digit.
Qed.

Lemma mask_shows_last_four_only_witness :
  cleaned (mask_card_number "4111-1111-1111-1234")
  = String.list_ascii_of_string (get_last_four_digits "4111-1111-1111-1234").
Proof.
  refine (proj1 (proj1 (mask_shows_last_four_only "4111-1111-1111-1234") _)).
  vm_compute. repeat constructor.
Defined.

Lemma foldl_add_nat (l : list nat) : forall a, foldl Nat.add a l = (a + sum_nat l)%nat.
Proof.
  unfold sum_nat. induction l as [|x l IH]; intros a; simpl; [lia|].
  rewrite (IH (a + x)%nat), (IH x). lia.
Qed.

Lemma sum_nat_cons x l : sum_nat (x :: l) = (x + sum_nat l)%nat.
Proof. unfold sum_nat at 1. simpl. apply foldl_add_nat. Qed.

Lemma foldl_doubles (l : list nat) : forall s,
  foldl (fun checksum d => (checksum + sum_nat (digits_of (d * 2)))%nat) s l
  = (s + luhn_sum false (flat_map (fun d => [d; 0%nat]) l))%nat.
Proof.
  induction l as [|d l IH]; intros s; simpl; [lia|].
  rewrite IH. unfold luhn_double. lia.
Qed.

Lemma every_other_cons x l : every_other (x :: l) = x :: every_other (tail l).
Proof. destruct l; reflexivity. Qed.

(** The checksum of [luhn_check] is [luhn_sum] over the reversed digits. *)
Lemma luhn_checksum (l : list nat) :
  (sum_nat (every_other l)
   + luhn_sum false (flat_map (fun d => [d; 0%nat]) (every_other (tail l))))%nat
  = luhn_sum true l
  /\ (sum_nat (every_other (tail l))
      + luhn_sum false (flat_map (fun d => [d; 0%nat]) (every_other l)))%nat
     = luhn_sum false l.
Proof.
  induction l as [|x l [IH1 IH2]]; [split; reflexivity|].
  split.
  - rewrite every_other_cons, sum_nat_cons. simpl tail. simpl luhn_sum. lia.
  - rewrite every_other_cons. simpl tail. simpl flat_map. simpl luhn_sum. lia.
Qed.

Lemma luhn_check_sum (card_num : list ascii) :
  luhn_check card_num
  = (luhn_sum true (reverse (map int_of_digit card_num)) mod 10 =? 0)%nat.
Proof.
  unfold luhn_check. rewrite foldl_doubles.
  rewrite (proj1 (luhn_checksum _)). reflexivity.
Qed.

Lemma luhn_sum_split (pre : list nat) : forall plain,
  exists plain' : bool, forall (x : nat) (post : list nat),
    luhn_sum plain (pre ++ x :: post)
    = (luhn_sum plain pre + (if plain' then x else luhn_double x)
       + luhn_sum (negb plain') post)%nat.
Proof.
  induction pre as [|d pre IH]; intros plain.
  - exists plain. intros x post. simpl. lia.
  - destruct (IH (negb plain)) as [plain' H]. exists plain'. intros x post.
    simpl. rewrite H. lia.
Qed.

Lemma luhn_double_digit (x y : nat) :
  (x < 10)%nat -> (y < 10)%nat ->
  (luhn_double x < 10)%nat /\ (luhn_double x = luhn_double y -> x = y).
Proof.
  intros Hx Hy.
  do 10 (destruct x as [|x]; [do 10 (destruct y as [|y];
           [vm_compute; split; [lia|intros E; first [reflexivity|discriminate E]]|]); lia|]).
  lia.
Qed.

Lemma int_of_digit_lt (c : ascii) : is_digit c = true -> (int_of_digit c < 10)%nat.
Proof.
  unfold is_digit, int_of_digit. intros H. apply andb_true_iff in H as [H1 H2].
  apply Nat.leb_le in H1, H2. lia.
Qed.

Lemma int_of_digit_inj (c c' : ascii) :
  is_digit c = true -> is_digit c' = true -> int_of_digit c = int_of_digit c' -> c = c'.
Proof.
  unfold is_digit, int_of_digit. intros H H' E.
  apply andb_true_iff in H as [H1 _]. apply andb_true_iff in H' as [H1' _].
  apply Nat.leb_le in H1, H1'.
  rewrite <- (ascii_nat_embedding c), <- (ascii_nat_embedding c'). f_equal. lia.
Qed.

Lemma cleaned_around (a b : string) (c : ascii) :
  is_digit c = true ->
  cleaned (String.append a (String c b)) = cleaned a ++ c :: cleaned b.
Proof.
  intros Hc. unfold cleaned. rewrite list_ascii_of_append, filter_app. simpl.
  rewrite filter_cons_True by exact Hc. reflexivity.
Qed.

(** X14. The Luhn check catches every single wrong digit: when a card
    number passes [validate_luhn_algorithm], the number obtained by
    replacing one of its digits by a different digit does not pass. *)
Theorem luhn_detects_one_wrong_digit (a b : string) (c c' : ascii) :
  is_digit c = true -> is_digit c' = true -> c <> c' ->
  validate_luhn_algorithm (String.append a (String c b)) = true ->
  validate_luhn_algorithm (String.append a (String c' b)) = false.
Proof.
  intros Hc Hc' Hne. unfold validate_luhn_algorithm.
  rewrite !cleaned_around by assumption.
  assert (Hn : forall d, String.append a (String d b) <> EmptyString).
  { intros d. destruct a; discriminate. }
  rewrite !bool_decide_eq_false_2 by apply Hn.
  rewrite !length_app. simpl length.
  destruct ((_ <? 13) || (19 <? _))%nat; [discriminate|].
  rewrite !luhn_check_sum, !map_app. simpl map. rewrite !reverse_app, !reverse_cons.
  rewrite <- !app_assoc. simpl app.
  destruct (luhn_sum_split (reverse (map int_of_digit (cleaned b))) true) as [plain Hs].
  rewrite !Hs.
  set (S0 := (luhn_sum true (reverse (map int_of_digit (cleaned b))))%nat).
  set (S1 := luhn_sum (negb plain) (reverse (map int_of_digit (cleaned a)))).
  pose proof (int_of_digit_lt c Hc) as Hlt.
  pose proof (int_of_digit_lt c' Hc') as Hlt'.
  assert (Hd : int_of_digit c <> int_of_digit c').
  { intros E. apply Hne. apply int_of_digit_inj; assumption. }
  destruct (luhn_double_digit (int_of_digit c) (int_of_digit c') Hlt Hlt') as [Hb Hinj].
  destruct (luhn_double_digit (int_of_digit c') (int_of_digit c) Hlt' Hlt) as [Hb' _].
  clearbody S0 S1.
  intros H. apply Nat.eqb_eq in H. apply Nat.eqb_neq. intros H'.
  assert (Hmod : forall s x y : nat,
            (x < 10)%nat -> (y < 10)%nat -> x <> y ->
            ((S0 + x + s) mod 10)%nat = 0%nat -> ((S0 + y + s) mod 10)%nat = 0%nat -> False).
  { intros s x y Hx Hy Hxy Ex Ey.
    pose proof (Nat.div_mod_eq (S0 + x + s) 10) as Dx.
    pose proof (Nat.div_mod_eq (S0 + y + s) 10) as Dy.
    rewrite Ex in Dx. rewrite Ey in Dy. lia. }
  destruct plain.
  - exact (Hmod S1 _ _ Hlt Hlt' Hd H H').
  - refine (Hmod S1 _ _ Hb Hb' _ H H'). intros E. apply Hd, Hinj, E.
Qed.

Lemma luhn_detects_one_wrong_digit_witness :
  validate_luhn_algorithm "4111 1111 1111 1121" = false.
Proof.
  refine (luhn_detects_one_wrong_digit "4111 1111 1111 11" "1" "1" "2" _ _ _ _).
  - reflexivity.
  - reflexivity.
  - discriminate.
  - vm_compute. reflexivity.
Defined.

(** ** The fallback without its transaction *)



